(** * Online shopping cart: the catalog / cart state machine of [main.py]

    A shallow embedding of the classes [Product], [CartItem] and
    [ShoppingCart], and the properties of the cart manager proved over it.

    Modelling choices.
    - Python integers are [Z].  The identifier counter [_next_id] starts at 1
      and is only ever incremented, it is a natural number [N].
    - A price is whatever number the caller passes (the dialogs pass a float):
      the development is parametric in a type of prices with the three
      operations the program uses on it, see [Numeric].
    - [Product] objects are shared between the catalog and the cart lines, so
      they live in an explicit store [heap] and both mappings hold references
      ([loc]) into it.  A [CartItem] is only ever reachable through its entry
      of the cart mapping, it is stored in place.
    - [catalog] is a finite map.  [cart] is iterated by [get_cart_total], so it
      keeps Python's insertion order: it is an association list, see [dict_set].
    - A Python exception ([KeyError]) is an explicit outcome [Raise]. *)

From Stdlib Require Import ZArith NArith Lia DecimalString DecimalN.
From stdpp Require Import base option list gmap strings.

Local Open Scope Z_scope.

(** ** Numbers used as prices *)

Class Numeric (P : Type) := {
  num_zero : P;                 (* the integer 0 that [sum] starts from *)
  num_add : P -> P -> P;        (* [a + b] *)
  num_mul_int : P -> Z -> P     (* [price * quantity] *)
}.

#[global] Instance Z_Numeric : Numeric Z :=
  {| num_zero := 0; num_add := Z.add; num_mul_int := Z.mul |}.

(** ** The format [f"PID{n:03d}"] *)

Fixpoint zero_pad (k : nat) (d : Decimal.uint) : Decimal.uint :=
  match k with
  | O => d
  | S k' => Decimal.D0 (zero_pad k' d)
  end.

(** [f"{n:03d}"] for a natural number: the decimal digits, padded with zeros
    on the left up to a width of three. *)
Definition format_03d (n : N) : string :=
  let d := N.to_uint n in
  NilEmpty.string_of_uint (zero_pad (3 - Decimal.nb_digits d) d).

(** ** An insertion-ordered dictionary with string keys *)

Section Dict.
Context {V : Type}.

Definition dict := list (string * V).

(** [d[k]], [None] standing for an absent key. *)
Fixpoint dict_get (k : string) (d : dict) : option V :=
  match d with
  | [] => None
  | (k', v) :: rest => if decide (k' = k) then Some v else dict_get k rest
  end.

(** [d[k] = v]: an existing key keeps its position, a new key goes last. *)
Fixpoint dict_set (k : string) (v : V) (d : dict) : dict :=
  match d with
  | [] => [(k, v)]
  | (k', v') :: rest =>
      if decide (k' = k) then (k, v) :: rest else (k', v') :: dict_set k v rest
  end.

(** [del d[k]] *)
Fixpoint dict_del (k : string) (d : dict) : dict :=
  match d with
  | [] => []
  | (k', v') :: rest =>
      if decide (k' = k) then dict_del k rest else (k', v') :: dict_del k rest
  end.

Definition dict_keys (d : dict) : list string := map fst d.
Definition dict_values (d : dict) : list V := map snd d.
End Dict.
Arguments dict : clear implicits.

(** ** Products *)

Abbreviation loc := nat.

Section Cart.
Context {P : Type} `{Numeric P}.

Record Product := mkProduct {
  product_id : string;
  name : string;
  price : P;
  quantity_available : Z
}.

Definition with_quantity (p : Product) (q : Z) : Product :=
  mkProduct (product_id p) (name p) (price p) q.

(** The setter of the property [quantity_available]. *)
Definition set_quantity_available (value : Z) (p : Product) : Product :=
  if 0 <=? value then with_quantity p value else p.

Definition decrease_quantity (amount : Z) (p : Product) : bool * Product :=
  if (0 <? amount) && (amount <=? quantity_available p)
  then (true, with_quantity p (quantity_available p - amount))
  else (false, p).

Definition increase_quantity (amount : Z) (p : Product) : unit * Product :=
  (tt, with_quantity p (quantity_available p + amount)).

(** ** Cart lines and the cart manager *)

Record CartItem := mkCartItem {
  product : loc;
  quantity : Z
}.

Definition with_item_quantity (item : CartItem) (q : Z) : CartItem :=
  mkCartItem (product item) q.

Record ShoppingCart := mkShoppingCart {
  heap : list Product;
  catalog : gmap string loc;
  cart : dict CartItem;
  next_id : N
}.

(** [ShoppingCart()] *)
Definition init : ShoppingCart := mkShoppingCart [] ∅ [] 1%N.

Definition set_heap (h : list Product) (s : ShoppingCart) : ShoppingCart :=
  mkShoppingCart h (catalog s) (cart s) (next_id s).
Definition set_catalog (c : gmap string loc) (s : ShoppingCart) : ShoppingCart :=
  mkShoppingCart (heap s) c (cart s) (next_id s).
Definition set_cart (c : dict CartItem) (s : ShoppingCart) : ShoppingCart :=
  mkShoppingCart (heap s) (catalog s) c (next_id s).
Definition set_next_id (n : N) (s : ShoppingCart) : ShoppingCart :=
  mkShoppingCart (heap s) (catalog s) (cart s) n.

(** ** A method call: a state transformer that may raise *)

Inductive exn :=
| KeyError (k : string)      (* a subscript on a missing key *)
| InvalidRef (l : loc).      (* a reference to no object: never in Python *)

Inductive result (A : Type) :=
| Ret (a : A) (s : ShoppingCart)
| Raise (e : exn).
Arguments Ret {A} a s.
Arguments Raise {A} e.

Definition M (A : Type) := ShoppingCart -> result A.

Definition ret {A} (a : A) : M A := fun s => Ret a s.
Definition raise {A} (e : exn) : M A := fun _ => Raise e.
Definition bind {A B} (m : M A) (k : A -> M B) : M B :=
  fun s => match m s with
           | Ret a s' => k a s'
           | Raise e => Raise e
           end.
Definition gets {A} (f : ShoppingCart -> A) : M A := fun s => Ret (f s) s.
Definition modify (f : ShoppingCart -> ShoppingCart) : M unit :=
  fun s => Ret tt (f s).

Notation "x <- m ;; k" := (bind m (fun x => k))
  (at level 20, m at level 99, k at level 200, only parsing).
Notation "m ;; k" := (bind m (fun _ => k))
  (at level 100, k at level 200, right associativity, only parsing).

(** Reading the object behind a reference. *)
Definition deref (l : loc) : M Product :=
  fun s => match heap s !! l with
           | Some p => Ret p s
           | None => Raise (InvalidRef l)
           end.

(** Calling a method of the [Product] behind a reference: the method's
    result, and the object updated in place. *)
Definition call {A} (l : loc) (method : Product -> A * Product) : M A :=
  p <- deref l ;;
  let '(a, p') := method p in
  modify (fun s => set_heap (<[l := p']> (heap s)) s) ;;
  ret a.

(** [Product(pid, name, price, quantity)]: a new object. *)
Definition new_product (p : Product) : M loc :=
  fun s => Ret (length (heap s)) (set_heap (heap s ++ [p]) s).

Definition generate_product_id : M string :=
  n <- gets next_id ;;
  let pid := "PID" +:+ format_03d n in
  modify (set_next_id (n + 1)%N) ;;
  ret pid.

Definition add_product (name : string) (price : P) (qty : Z) : M string :=
  pid <- generate_product_id ;;
  l <- new_product (mkProduct pid name price qty) ;;
  modify (fun s => set_catalog (<[pid := l]> (catalog s)) s) ;;
  ret pid.

Definition add_to_cart (pid : string) (qty : Z) : M bool :=
  c <- gets catalog ;;
  match c !! pid with
  | Some product =>
      ok <- call product (decrease_quantity qty) ;;
      if ok : bool then
        crt <- gets cart ;;
        match dict_get pid crt with
        | Some item =>
            modify (set_cart
              (dict_set pid (with_item_quantity item (quantity item + qty)) crt)) ;;
            ret true
        | None =>
            modify (set_cart (dict_set pid (mkCartItem product qty) crt)) ;;
            ret true
        end
      else ret false
  | None => ret false
  end.

Definition update_cart_quantity (pid : string) (new_qty : Z) : M bool :=
  crt <- gets cart ;;
  match dict_get pid crt with
  | Some item =>
      let current_qty := quantity item in
      p <- deref (product item) ;;
      let available_qty := quantity_available p in
      let diff := new_qty - current_qty in
      if diff =? 0 then ret true
      else if 0 <? diff then
        if diff <=? available_qty then
          call (product item) (decrease_quantity diff) ;;
          modify (set_cart (dict_set pid (with_item_quantity item new_qty) crt)) ;;
          ret true
        else ret false
      else
        call (product item) (increase_quantity (- diff)) ;;
        modify (set_cart (dict_set pid (with_item_quantity item new_qty) crt)) ;;
        ret true
  | None => ret false
  end.

Definition remove_from_cart (pid : string) : M bool :=
  crt <- gets cart ;;
  match dict_get pid crt with
  | Some item =>
      c <- gets catalog ;;
      match c !! pid with
      | Some l =>
          call l (increase_quantity (quantity item)) ;;
          modify (set_cart (dict_del pid crt)) ;;
          ret true
      | None => raise (KeyError pid)
      end
  | None => ret false
  end.

(** [CartItem.subtotal] *)
Definition subtotal (item : CartItem) : M P :=
  p <- deref (product item) ;;
  ret (num_mul_int (price p) (quantity item)).

(** [sum(item.subtotal() for item in items)], from the accumulator [acc]. *)
Fixpoint sum_subtotals (items : list CartItem) (acc : P) : M P :=
  match items with
  | [] => ret acc
  | item :: rest =>
      x <- subtotal item ;;
      sum_subtotals rest (num_add acc x)
  end.

Definition get_cart_total : M P :=
  crt <- gets cart ;;
  sum_subtotals (dict_values crt) num_zero.

Definition clear_cart : M unit :=
  modify (set_cart []).

(** ** Sequences of calls on the cart manager *)

Inductive op :=
| AddProduct (name : string) (price : P) (qty : Z)
| AddToCart (pid : string) (qty : Z)
| UpdateCartQuantity (pid : string) (new_qty : Z)
| RemoveFromCart (pid : string)
| GetCartTotal
| ClearCart.

(** One call, its return value dropped. *)
Definition step (o : op) : M unit :=
  match o with
  | AddProduct name price qty => add_product name price qty ;; ret tt
  | AddToCart pid qty => add_to_cart pid qty ;; ret tt
  | UpdateCartQuantity pid new_qty => update_cart_quantity pid new_qty ;; ret tt
  | RemoveFromCart pid => remove_from_cart pid ;; ret tt
  | GetCartTotal => get_cart_total ;; ret tt
  | ClearCart => clear_cart
  end.

Fixpoint run (ops : list op) : M unit :=
  match ops with
  | [] => ret tt
  | o :: rest => step o ;; run rest
  end.

(** ** Observations on a state *)

(** The stock of the product the catalog holds under [pid]. *)
Definition stock_available (pid : string) (s : ShoppingCart) : option Z :=
  match catalog s !! pid with
  | Some l => quantity_available <$> heap s !! l
  | None => None
  end.

(** What one cart line reserves of the product behind [l]. *)
Definition reserves (l : loc) (item : CartItem) : Z :=
  if decide (product item = l) then quantity item else 0.

(** The quantity reserved, over all cart lines, of the product behind [l]. *)
Fixpoint reserved (l : loc) (c : dict CartItem) : Z :=
  match c with
  | [] => 0
  | (_, item) :: rest => reserves l item + reserved l rest
  end.

(** The same for the product the catalog holds under [pid]. *)
Definition reserved_for (pid : string) (s : ShoppingCart) : option Z :=
  match catalog s !! pid with
  | Some l => Some (reserved l (cart s))
  | None => None
  end.


(** The unit price a cart line refers to. *)
Definition unit_price (s : ShoppingCart) (item : CartItem) : option P :=
  price <$> heap s !! product item.

(** ** Calls on one [Product] *)

Inductive product_op :=
| Decrease (amount : Z)
| Increase (amount : Z)
| SetQuantity (value : Z).

Definition apply_product_op (p : Product) (o : product_op) : Product :=
  match o with
  | Decrease amount => (decrease_quantity amount p).2
  | Increase amount => (increase_quantity amount p).2
  | SetQuantity value => set_quantity_available value p
  end.

Definition apply_product_ops (ops : list product_op) (p : Product) : Product :=
  fold_left apply_product_op ops p.

(** A restock by an amount that is not negative; the other calls pass. *)
Definition restocks_nonneg (o : product_op) : bool :=
  match o with
  | Increase amount => 0 <=? amount
  | _ => true
  end.

(** ** Predicates on states *)

(** Every reference held by the catalog or by a cart line is to an object
    of the store.  Python guarantees it of every state. *)
Definition valid_refs (s : ShoppingCart) : Prop :=
  map_Forall (fun _ l => (l < length (heap s))%nat) (catalog s) /\
  Forall (fun kv => (product kv.2 < length (heap s))%nat) (cart s).

(** Every cart line is filed under a key of the catalog and refers to the
    very product the catalog holds under that key. *)
Definition coherent (s : ShoppingCart) : Prop :=
  Forall (fun kv => catalog s !! kv.1 = Some (product kv.2)) (cart s).

(** The keys of the catalog are the identifiers generated so far. *)
Definition generated_ids (s : ShoppingCart) : Prop :=
  map_Forall (fun pid _ =>
    exists n, (n < next_id s)%N /\ pid = "PID" +:+ format_03d n) (catalog s).

Definition invariant (s : ShoppingCart) : Prop :=
  valid_refs s /\ coherent s /\ generated_ids s /\ NoDup (dict_keys (cart s)).

(** The states the cart manager can be in. *)
Definition reachable (s : ShoppingCart) : Prop :=
  exists ops, run ops init = Ret tt s.

(** Every cart line has a positive quantity. *)
Definition positive_lines (s : ShoppingCart) : Prop :=
  Forall (fun kv => 0 < quantity kv.2) (cart s).

(** Every call but [clear_cart]. *)
Definition keeps_reservations (o : op) : bool :=
  match o with
  | ClearCart => false
  | _ => true
  end.

(** An update of a cart line to a positive quantity; the other calls pass. *)
Definition updates_to_positive (o : op) : bool :=
  match o with
  | UpdateCartQuantity _ new_qty => 0 <? new_qty
  | _ => true
  end.

(** Between [s] and [s'] every product of [s] keeps the sum of its stock
    and of the quantity the cart lines reserve of it. *)
Definition conserved (s s' : ShoppingCart) : Prop :=
  forall l p, heap s !! l = Some p ->
    exists p', heap s' !! l = Some p' /\
      quantity_available p' + reserved l (cart s')
      = quantity_available p + reserved l (cart s).

(** What every call keeps or establishes, from a state [s] to [s']. *)
Definition sound_step (o : op) (s s' : ShoppingCart) : Prop :=
  invariant s' /\
  catalog s ⊆ catalog s' /\
  (keeps_reservations o = true -> conserved s s') /\
  (updates_to_positive o = true -> positive_lines s -> positive_lines s').

End Cart.

Arguments Product : clear implicits.
Arguments ShoppingCart : clear implicits.
Arguments result : clear implicits.
Arguments M : clear implicits.
Arguments op : clear implicits.
Arguments Ret {P A} a s.
Arguments Raise {P A} e.

(** ** States of the scenario: a pen (10 a piece, 5 in stock) and a book *)

Definition two_products : list (op Z) :=
  [AddProduct "Pen" 10 5; AddProduct "Book" 50 2].

Definition pen : Product Z := mkProduct "PID001" "Pen" 10 5.
Definition book : Product Z := mkProduct "PID002" "Book" 50 2.

(** The catalog holds the pen and the book, the cart is empty. *)
Definition shop : ShoppingCart Z :=
  mkShoppingCart [pen; book] (<["PID002" := 1%nat]> (<["PID001" := 0%nat]> ∅)) [] 3%N.

(** Three pens are in the cart. *)
Definition shop_3_pens : ShoppingCart Z :=
  mkShoppingCart [with_quantity pen 2; book] (catalog shop)
    [("PID001", mkCartItem 0%nat 3)] 3%N.

(** Three pens and one book are in the cart; every stock is written out. *)
Definition shop_pens_and_book : ShoppingCart Z :=
  mkShoppingCart
    [mkProduct "PID001" "Pen" 10 2; mkProduct "PID002" "Book" 50 1]
    (catalog shop)
    [("PID001", mkCartItem 0%nat 3); ("PID002", mkCartItem 1%nat 1)] 3%N.

(** ** The checkout of the application *)

(** The test [total == 0] on a price; the zero [sum] starts from passes it. *)
Class NumericZero (P : Type) `{Numeric P} := {
  num_is_zero : P -> bool;
  num_is_zero_zero : num_is_zero num_zero = true
}.

#[global] Instance Z_NumericZero : NumericZero Z :=
  {| num_is_zero := fun total => total =? 0; num_is_zero_zero := eq_refl |}.

Section Application.
Context {P : Type} `{NumericZero P}.

(** What [ShoppingCartApp.checkout] shows, in order: the message boxes and the
    line it appends to the output. *)
Inductive shown :=
| CartIsEmpty                  (* showinfo("Checkout", "Cart is empty.") *)
| PaymentPrompt (total : P)    (* showinfo("Payment", ... total ...) *)
| OrderPlaced.                 (* "Order placed! Cart cleared." *)

Definition checkout : M P (list shown) :=
  bind get_cart_total (fun total =>
  if num_is_zero total then ret [CartIsEmpty]
  else bind clear_cart (fun _ => ret [PaymentPrompt total; OrderPlaced])).
End Application.

Arguments shown : clear implicits.

(** ** The shapes a call can give to the state *)

Section Effects.
Context {P : Type} `{Numeric P}.

(** The key a call on the cart is about. *)
Definition op_key (o : op P) : option string :=
  match o with
  | AddToCart pid _ | UpdateCartQuantity pid _ | RemoveFromCart pid => Some pid
  | _ => None
  end.

(** The quantity of the cart line of [pid], 0 when there is none. *)
Definition line_quantity (pid : string) (s : ShoppingCart P) : Z :=
  match dict_get pid (cart s) with
  | Some item => quantity item
  | None => 0
  end.

Inductive effect : op P -> ShoppingCart P -> ShoppingCart P -> Prop :=
| effect_none o s :
    effect o s s
| effect_new nm pr qty s :
    effect (AddProduct nm pr qty) s
      (mkShoppingCart
         (heap s ++ [mkProduct ("PID" +:+ format_03d (next_id s)) nm pr qty])
         (<["PID" +:+ format_03d (next_id s) := length (heap s)]> (catalog s))
         (cart s) (next_id s + 1)%N)
| effect_transfer o s pid l p item' delta :
    op_key o = Some pid ->
    catalog s !! pid = Some l -> heap s !! l = Some p ->
    product item' = l ->
    quantity item' = line_quantity pid s + delta ->
    (0 < delta -> delta <= quantity_available p) ->
    effect o s
      (mkShoppingCart
         (<[l := with_quantity p (quantity_available p - delta)]> (heap s))
         (catalog s) (dict_set pid item' (cart s)) (next_id s))
| effect_release s pid l p item :
    dict_get pid (cart s) = Some item ->
    catalog s !! pid = Some l -> heap s !! l = Some p ->
    effect (RemoveFromCart pid) s
      (mkShoppingCart
         (<[l := with_quantity p (quantity_available p + quantity item)]> (heap s))
         (catalog s) (dict_del pid (cart s)) (next_id s))
| effect_clear s :
    effect ClearCart s (set_cart [] s).

(** ** More predicates on states *)

(** Two keys of the catalog never hold the same object. *)
Definition catalog_inj (s : ShoppingCart P) : Prop :=
  forall k1 k2 l,
    catalog s !! k1 = Some l -> catalog s !! k2 = Some l -> k1 = k2.

(** The product filed under a key carries that key as its [product_id]. *)
Definition own_ids (s : ShoppingCart P) : Prop :=
  forall k l p,
    catalog s !! k = Some l -> heap s !! l = Some p -> product_id p = k.

(** The keys of the catalog are the identifiers of the counters from 1 up to
    the next one, and there is one object per key. *)
Definition counted (s : ShoppingCart P) : Prop :=
  next_id s = (N.of_nat (length (heap s)) + 1)%N /\
  size (catalog s) = length (heap s) /\
  forall k, is_Some (catalog s !! k) <->
            exists n, (1 <= n < next_id s)%N /\ k = "PID" +:+ format_03d n.

Definition registry (s : ShoppingCart P) : Prop :=
  catalog_inj s /\ own_ids s /\ counted s.

(** No stock is negative, nor is a stock together with what is reserved. *)
Definition stock_nonneg (s : ShoppingCart P) : Prop :=
  forall l p, heap s !! l = Some p ->
    0 <= quantity_available p /\
    0 <= quantity_available p + reserved l (cart s).

(** A product created with a stock that is not negative; the other calls pass. *)
Definition creates_nonneg (o : op P) : bool :=
  match o with
  | AddProduct _ _ qty => 0 <=? qty
  | _ => true
  end.

(** From [s] to [s'] the catalog keeps its entries and every product keeps
    its identifier, name and price. *)
Definition same_products (s s' : ShoppingCart P) : Prop :=
  catalog s ⊆ catalog s' /\
  forall l p, heap s !! l = Some p ->
    exists p', heap s' !! l = Some p' /\
      product_id p' = product_id p /\ name p' = name p /\ price p' = price p.
End Effects.

(** ** Integer prices *)

(** Every product has a positive price. *)
Definition prices_positive (s : ShoppingCart Z) : Prop :=
  Forall (fun p => 0 < price p) (heap s).

(** A product created at a positive price; the other calls pass. *)
Definition sells_at_positive_price (o : op Z) : bool :=
  match o with
  | AddProduct _ pr _ => 0 <? pr
  | _ => true
  end.

(** The price times the quantity of a cart line, over the store [h]. *)
Definition line_value (h : list (Product Z)) (item : CartItem) : Z :=
  match h !! product item with
  | Some p => price p * quantity item
  | None => 0
  end.

(** The sum of the values of the cart lines. *)
Fixpoint lines_total (h : list (Product Z)) (c : dict CartItem) : Z :=
  match c with
  | [] => 0
  | (_, item) :: rest => line_value h item + lines_total h rest
  end.

(** ** Facts on the dictionary *)

Section DictFacts.
Context {V : Type}.
Implicit Types (d : dict V) (k : string) (v : V).

Lemma dict_get_set_eq k v d : dict_get k (dict_set k v d) = Some v.
Proof.
  induction d as [|[k' v'] d IH]; simpl.
  - by rewrite decide_True.
  - destruct (decide (k' = k)) as [->|Hne]; simpl.
    + by rewrite decide_True.
    + by rewrite decide_False.
Qed.

Lemma dict_get_set_ne k k' v d :
  k ≠ k' -> dict_get k' (dict_set k v d) = dict_get k' d.
Proof.
  intros Hne. induction d as [|[k0 v0] d IH]; simpl.
  - by rewrite decide_False.
  - destruct (decide (k0 = k)) as [->|Hne0]; simpl.
    + by rewrite !decide_False.
    + by rewrite IH.
Qed.

Lemma dict_get_del_eq k d : dict_get k (dict_del k d) = None.
Proof.
  induction d as [|[k' v'] d IH]; simpl; [done|].
  destruct (decide (k' = k)) as [->|Hne]; simpl; [done|].
  by rewrite decide_False.
Qed.

Lemma dict_get_del_ne k k' d :
  k ≠ k' -> dict_get k' (dict_del k d) = dict_get k' d.
Proof.
  intros Hne. induction d as [|[k0 v0] d IH]; simpl; [done|].
  destruct (decide (k0 = k)) as [->|Hne0]; simpl.
  - by rewrite decide_False.
  - by rewrite IH.
Qed.

Lemma dict_get_Some_elem k v d : dict_get k d = Some v -> (k, v) ∈ d.
Proof.
  induction d as [|[k' v'] d IH]; simpl; [done|].
  destruct (decide (k' = k)) as [->|Hne].
  - intros [= ->]. apply list_elem_of_here.
  - intros Hg. apply list_elem_of_further. auto.
Qed.

Lemma dict_get_None_keys k d : dict_get k d = None -> k ∉ dict_keys d.
Proof.
  induction d as [|[k' v'] d IH]; simpl.
  - intros _. apply not_elem_of_nil.
  - destruct (decide (k' = k)) as [->|Hne]; [done|].
    intros Hg Hin. apply elem_of_cons in Hin as [->|Hin]; [done|].
    by apply IH.
Qed.

Lemma dict_get_is_Some_keys k d : k ∈ dict_keys d -> is_Some (dict_get k d).
Proof.
  induction d as [|[k' v'] d IH]; simpl.
  - intros Hin. by apply not_elem_of_nil in Hin.
  - intros Hin. destruct (decide (k' = k)) as [->|Hne]; [by eexists|].
    apply elem_of_cons in Hin as [->|Hin]; [done|]. auto.
Qed.

Lemma dict_keys_set_Some k v v0 d :
  dict_get k d = Some v0 -> dict_keys (dict_set k v d) = dict_keys d.
Proof.
  induction d as [|[k' v'] d IH]; simpl; [done|].
  destruct (decide (k' = k)) as [->|Hne]; simpl; [done|].
  intros Hg. by rewrite IH.
Qed.

Lemma dict_keys_set_None k v d :
  dict_get k d = None -> dict_keys (dict_set k v d) = dict_keys d ++ [k].
Proof.
  induction d as [|[k' v'] d IH]; simpl; [done|].
  destruct (decide (k' = k)) as [->|Hne]; simpl; [done|].
  intros Hg. by rewrite IH.
Qed.

Lemma dict_set_NoDup k v d :
  NoDup (dict_keys d) -> NoDup (dict_keys (dict_set k v d)).
Proof.
  intros Hnd. destruct (dict_get k d) as [v0|] eqn:Hg.
  - by rewrite (dict_keys_set_Some _ _ _ _ Hg).
  - rewrite (dict_keys_set_None _ _ _ Hg).
    apply NoDup_app. split; [done|]. split; [|apply NoDup_singleton].
    intros x Hx Hx'. apply list_elem_of_singleton in Hx' as ->.
    by apply dict_get_None_keys in Hg.
Qed.

Lemma dict_keys_del k k' d : k' ∈ dict_keys (dict_del k d) -> k' ∈ dict_keys d.
Proof.
  induction d as [|[k0 v0] d IH]; simpl; [done|].
  destruct (decide (k0 = k)) as [->|Hne]; simpl.
  - intros Hin. apply list_elem_of_further. auto.
  - intros Hin. apply elem_of_cons in Hin as [->|Hin].
    + apply list_elem_of_here.
    + apply list_elem_of_further. auto.
Qed.

Lemma dict_del_NoDup k d :
  NoDup (dict_keys d) -> NoDup (dict_keys (dict_del k d)).
Proof.
  induction d as [|[k0 v0] d IH]; simpl; [done|].
  intros Hnd. apply NoDup_cons in Hnd as [Hnotin Hnd].
  destruct (decide (k0 = k)) as [->|Hne]; simpl; [auto|].
  apply NoDup_cons. split; [|auto].
  intros Hin. apply Hnotin. by eapply dict_keys_del.
Qed.

Lemma dict_del_absent k d : dict_get k d = None -> dict_del k d = d.
Proof.
  induction d as [|[k0 v0] d IH]; simpl; [done|].
  destruct (decide (k0 = k)) as [->|Hne]; [done|].
  intros Hg. by rewrite IH.
Qed.

Lemma dict_set_Forall (Q : string * V -> Prop) k v d :
  Forall Q d -> Q (k, v) -> Forall Q (dict_set k v d).
Proof.
  intros Hall Hq. induction Hall as [|[k0 v0] d Hq0 Hall IH]; simpl.
  - by repeat constructor.
  - destruct (decide (k0 = k)); constructor; auto.
Qed.

Lemma dict_del_Forall (Q : string * V -> Prop) k d :
  Forall Q d -> Forall Q (dict_del k d).
Proof.
  intros Hall. induction Hall as [|[k0 v0] d Hq0 Hall IH]; simpl; [done|].
  destruct (decide (k0 = k)); [done|]. by constructor.
Qed.

Lemma dict_get_Forall (Q : string * V -> Prop) k v d :
  Forall Q d -> dict_get k d = Some v -> Q (k, v).
Proof.
  intros Hall Hg. apply dict_get_Some_elem in Hg.
  rewrite Forall_forall in Hall. auto.
Qed.
End DictFacts.

(** ** Facts on the identifier format *)

Lemma of_uint_zero_pad k d : N.of_uint (zero_pad k d) = N.of_uint d.
Proof. induction k as [|k IH]; simpl; [done|]. exact IH. Qed.

Lemma format_03d_inj n m : format_03d n = format_03d m -> n = m.
Proof.
  unfold format_03d. intros Heq.
  apply (f_equal NilEmpty.uint_of_string) in Heq.
  rewrite !NilEmpty.usu in Heq. injection Heq as Heq.
  apply (f_equal N.of_uint) in Heq.
  by rewrite !of_uint_zero_pad, !DecimalN.Unsigned.of_to in Heq.
Qed.

Lemma product_id_inj n m :
  "PID" +:+ format_03d n = "PID" +:+ format_03d m -> n = m.
Proof. simpl. intros [= Heq]. by apply format_03d_inj. Qed.

(** ** The calls, case by case *)

Ltac unfold_calls :=
  unfold add_product, generate_product_id, new_product, add_to_cart,
    update_cart_quantity, remove_from_cart, get_cart_total, clear_cart,
    subtotal, call, deref, bind, gets, modify, ret, raise.

Section CallFacts.
Context {P : Type} `{Numeric P}.
Implicit Types (s : ShoppingCart P) (p : Product P) (item : CartItem).

Lemma set_heap_same s l p :
  heap s !! l = Some p -> set_heap (<[l := p]> (heap s)) s = s.
Proof. intros Hl. destruct s. unfold set_heap. simpl in *. by rewrite list_insert_id. Qed.

Lemma decrease_quantity_accepts amount p :
  0 < amount <= quantity_available p ->
  decrease_quantity amount p
  = (true, with_quantity p (quantity_available p - amount)).
Proof.
  intros [Hpos Hle]. unfold decrease_quantity.
  apply Z.ltb_lt in Hpos. apply Z.leb_le in Hle. by rewrite Hpos, Hle.
Qed.

Lemma decrease_quantity_refuses amount p :
  ~ (0 < amount <= quantity_available p) ->
  decrease_quantity amount p = (false, p).
Proof.
  intros Hno. unfold decrease_quantity.
  destruct (0 <? amount) eqn:Hpos; [|done].
  destruct (amount <=? quantity_available p) eqn:Hle; [|done].
  apply Z.ltb_lt in Hpos. apply Z.leb_le in Hle. lia.
Qed.

(** *** [add_product] *)

Lemma add_product_eq nm pr qty s :
  add_product nm pr qty s
  = let pid := "PID" +:+ format_03d (next_id s) in
    Ret pid (mkShoppingCart (heap s ++ [mkProduct pid nm pr qty])
               (<[pid := length (heap s)]> (catalog s))
               (cart s) (next_id s + 1)%N).
Proof. reflexivity. Qed.

(** *** [add_to_cart] *)

Lemma add_to_cart_unknown pid qty s :
  catalog s !! pid = None -> add_to_cart pid qty s = Ret false s.
Proof. intros Hc. unfold_calls. by rewrite Hc. Qed.

Lemma add_to_cart_refused pid qty s l p :
  catalog s !! pid = Some l -> heap s !! l = Some p ->
  ~ (0 < qty <= quantity_available p) ->
  add_to_cart pid qty s = Ret false s.
Proof.
  intros Hc Hl Hno. unfold_calls. rewrite Hc, Hl.
  rewrite (decrease_quantity_refuses _ _ Hno). by rewrite set_heap_same.
Qed.

Lemma add_to_cart_accepted pid qty s l p :
  catalog s !! pid = Some l -> heap s !! l = Some p ->
  0 < qty <= quantity_available p ->
  add_to_cart pid qty s
  = Ret true
      (mkShoppingCart
         (<[l := with_quantity p (quantity_available p - qty)]> (heap s))
         (catalog s)
         (dict_set pid
            match dict_get pid (cart s) with
            | Some item => with_item_quantity item (quantity item + qty)
            | None => mkCartItem l qty
            end (cart s))
         (next_id s)).
Proof.
  intros Hc Hl Hok. unfold_calls. rewrite Hc, Hl.
  rewrite (decrease_quantity_accepts _ _ Hok). simpl.
  by destruct (dict_get pid (cart s)).
Qed.

(** *** [update_cart_quantity] *)

Lemma update_absent pid new_qty s :
  dict_get pid (cart s) = None -> update_cart_quantity pid new_qty s = Ret false s.
Proof. intros Hg. unfold_calls. by rewrite Hg. Qed.

Lemma update_same pid new_qty s item p :
  dict_get pid (cart s) = Some item -> heap s !! product item = Some p ->
  new_qty - quantity item = 0 ->
  update_cart_quantity pid new_qty s = Ret true s.
Proof.
  intros Hg Hl Hdiff. unfold_calls. rewrite Hg, Hl.
  apply Z.eqb_eq in Hdiff. by rewrite Hdiff.
Qed.

Lemma update_grow pid new_qty s item p :
  dict_get pid (cart s) = Some item -> heap s !! product item = Some p ->
  0 < new_qty - quantity item <= quantity_available p ->
  update_cart_quantity pid new_qty s
  = Ret true
      (mkShoppingCart
         (<[product item :=
              with_quantity p (quantity_available p - (new_qty - quantity item))]>
            (heap s))
         (catalog s)
         (dict_set pid (with_item_quantity item new_qty) (cart s))
         (next_id s)).
Proof.
  intros Hg Hl Hdiff. unfold_calls. rewrite Hg, Hl. cbv zeta.
  rewrite (proj2 (Z.eqb_neq _ _)) by lia.
  rewrite (proj2 (Z.ltb_lt _ _)) by lia.
  rewrite (proj2 (Z.leb_le _ _)) by lia.
  by rewrite Hl, (decrease_quantity_accepts _ _ Hdiff).
Qed.

Lemma update_grow_refused pid new_qty s item p :
  dict_get pid (cart s) = Some item -> heap s !! product item = Some p ->
  quantity_available p < new_qty - quantity item -> 0 < new_qty - quantity item ->
  update_cart_quantity pid new_qty s = Ret false s.
Proof.
  intros Hg Hl Hlt Hpos. unfold_calls. rewrite Hg, Hl.
  rewrite (proj2 (Z.eqb_neq _ _)) by lia.
  rewrite (proj2 (Z.ltb_lt _ _)) by lia.
  by rewrite (proj2 (Z.leb_gt _ _)) by lia.
Qed.

Lemma update_shrink pid new_qty s item p :
  dict_get pid (cart s) = Some item -> heap s !! product item = Some p ->
  new_qty - quantity item < 0 ->
  update_cart_quantity pid new_qty s
  = Ret true
      (mkShoppingCart
         (<[product item :=
              with_quantity p (quantity_available p + - (new_qty - quantity item))]>
            (heap s))
         (catalog s)
         (dict_set pid (with_item_quantity item new_qty) (cart s))
         (next_id s)).
Proof.
  intros Hg Hl Hneg. unfold_calls. rewrite Hg, Hl.
  rewrite (proj2 (Z.eqb_neq _ _)) by lia.
  rewrite (proj2 (Z.ltb_ge _ _)) by lia.
  by rewrite Hl.
Qed.

(** *** [remove_from_cart] *)

Lemma remove_absent pid s :
  dict_get pid (cart s) = None -> remove_from_cart pid s = Ret false s.
Proof. intros Hg. unfold_calls. by rewrite Hg. Qed.

Lemma remove_present pid s item l p :
  dict_get pid (cart s) = Some item ->
  catalog s !! pid = Some l -> heap s !! l = Some p ->
  remove_from_cart pid s
  = Ret true
      (mkShoppingCart
         (<[l := with_quantity p (quantity_available p + quantity item)]> (heap s))
         (catalog s) (dict_del pid (cart s)) (next_id s)).
Proof. intros Hg Hc Hl. unfold_calls. by rewrite Hg, Hc, Hl. Qed.

Lemma remove_key_error pid s item :
  dict_get pid (cart s) = Some item -> catalog s !! pid = None ->
  remove_from_cart pid s = Raise (KeyError pid).
Proof. intros Hg Hc. unfold_calls. by rewrite Hg, Hc. Qed.

(** *** [get_cart_total] *)

Lemma sum_subtotals_eq s items acc :
  Forall (fun item => (product item < length (heap s))%nat) items ->
  exists prices,
    Forall2 (fun item pr => unit_price s item = Some pr) items prices /\
    sum_subtotals items acc s
    = Ret (fold_left num_add
             (zip_with num_mul_int prices (quantity <$> items)) acc) s.
Proof.
  intros Hall. revert acc.
  induction Hall as [|item items Hlt Hall IH]; intros acc.
  - exists []. split; [constructor|done].
  - apply lookup_lt_is_Some_2 in Hlt as [p Hp].
    destruct (IH (num_add acc (num_mul_int (price p) (quantity item))))
      as (prices & Hprices & Heq).
    exists (price p :: prices). split.
    + constructor; [|done]. cbv beta. unfold unit_price. by rewrite Hp.
    + cbn [sum_subtotals]. unfold subtotal, deref, bind, ret.
      rewrite Hp. exact Heq.
Qed.
End CallFacts.

(** ** Reserved quantities *)

Lemma reserved_set_Some l k item item' (c : dict CartItem) :
  dict_get k c = Some item ->
  reserved l (dict_set k item' c) = reserved l c - reserves l item + reserves l item'.
Proof.
  induction c as [|[k0 i0] c IH]; simpl; [done|].
  destruct (decide (k0 = k)) as [->|Hne]; simpl.
  - intros [= ->]. lia.
  - intros Hg. rewrite (IH Hg). lia.
Qed.

Lemma reserved_set_None l k item' (c : dict CartItem) :
  dict_get k c = None ->
  reserved l (dict_set k item' c) = reserved l c + reserves l item'.
Proof.
  induction c as [|[k0 i0] c IH]; simpl; [lia|].
  destruct (decide (k0 = k)) as [->|Hne]; simpl; [done|].
  intros Hg. rewrite (IH Hg). lia.
Qed.

Lemma reserved_del l k item (c : dict CartItem) :
  NoDup (dict_keys c) -> dict_get k c = Some item ->
  reserved l (dict_del k c) = reserved l c - reserves l item.
Proof.
  induction c as [|[k0 i0] c IH]; simpl; [done|].
  intros Hnd. apply NoDup_cons in Hnd as [Hnotin Hnd].
  destruct (decide (k0 = k)) as [->|Hne]; simpl.
  - intros [= ->]. rewrite dict_del_absent; [lia|].
    destruct (dict_get k c) as [other|] eqn:Hg; [|done].
    apply dict_get_Some_elem in Hg. exfalso. apply Hnotin.
    apply list_elem_of_fmap. by exists (k, other).
  - intros Hg. rewrite (IH Hnd Hg). lia.
Qed.

Lemma reserved_beyond l (c : dict CartItem) :
  Forall (fun kv => (product kv.2 < l)%nat) c -> reserved l c = 0.
Proof.
  induction 1 as [|[k0 i0] c Hlt Hall IH]; simpl in *; [done|].
  rewrite IH. unfold reserves. rewrite decide_False by lia. done.
Qed.

(** ** The invariant of the cart manager *)

Section Invariant.
Context {P : Type} `{Numeric P}.
Implicit Types (s : ShoppingCart P) (p : Product P) (item : CartItem).

Lemma conserved_refl s : conserved s s.
Proof. intros l p Hl. by exists p. Qed.

Lemma conserved_trans s1 s2 s3 :
  conserved s1 s2 -> conserved s2 s3 -> conserved s1 s3.
Proof.
  intros H12 H23 l p Hl.
  destruct (H12 l p Hl) as (p2 & Hl2 & Heq2).
  destruct (H23 l p2 Hl2) as (p3 & Hl3 & Heq3).
  exists p3. split; [done|]. lia.
Qed.

Lemma invariant_init : invariant (init (P:=P)).
Proof.
  repeat split; simpl.
  - apply map_Forall_empty.
  - constructor.
  - constructor.
  - apply map_Forall_empty.
  - constructor.
Qed.

Lemma invariant_line_ref s pid item :
  invariant s -> dict_get pid (cart s) = Some item ->
  catalog s !! pid = Some (product item) /\
  exists p, heap s !! product item = Some p.
Proof.
  intros ((Hcat & Hcart) & Hcoh & _) Hg.
  split.
  - exact (dict_get_Forall _ _ _ _ Hcoh Hg).
  - apply lookup_lt_is_Some_2. exact (dict_get_Forall _ _ _ _ Hcart Hg).
Qed.

Lemma invariant_catalog_ref s pid l :
  invariant s -> catalog s !! pid = Some l -> exists p, heap s !! l = Some p.
Proof.
  intros ((Hcat & _) & _) Hc. apply lookup_lt_is_Some_2. exact (Hcat _ _ Hc).
Qed.

(** Moving [delta] units between the stock of a product and its cart line. *)
Lemma transfer_invariant s pid l p item' delta :
  invariant s -> catalog s !! pid = Some l -> heap s !! l = Some p ->
  product item' = l ->
  quantity item'
  = match dict_get pid (cart s) with
    | Some item => quantity item
    | None => 0
    end + delta ->
  let s' := mkShoppingCart
              (<[l := with_quantity p (quantity_available p - delta)]> (heap s))
              (catalog s) (dict_set pid item' (cart s)) (next_id s) in
  invariant s' /\ conserved s s'.
Proof.
  intros Hinv Hc Hl Hprod Hqty s'.
  pose proof Hinv as ((Hcat & Hcart) & Hcoh & Hids & Hnd).
  split.
  - repeat split; simpl.
    + intros k l0 Hk. rewrite length_insert. exact (Hcat _ _ Hk).
    + apply dict_set_Forall.
      * eapply Forall_impl; [exact Hcart|]. intros kv Hkv. by rewrite length_insert.
      * simpl. rewrite length_insert, Hprod. by eapply lookup_lt_Some.
    + apply dict_set_Forall; [exact Hcoh|]. simpl. by rewrite Hprod.
    + exact Hids.
    + by apply dict_set_NoDup.
  - intros l0 p0 Hl0. simpl.
    assert (Hres : reserved l0 (dict_set pid item' (cart s))
                   = reserved l0 (cart s) + (if decide (l = l0) then delta else 0)).
    { destruct (dict_get pid (cart s)) as [item|] eqn:Hg.
      - rewrite (reserved_set_Some _ _ _ _ _ Hg).
        destruct (invariant_line_ref _ _ _ Hinv Hg) as [Hci _].
        assert (Hitem : product item = l) by congruence.
        unfold reserves. rewrite Hprod, Hitem.
        destruct (decide (l = l0)); lia.
      - rewrite (reserved_set_None _ _ _ _ Hg).
        unfold reserves. rewrite Hprod.
        destruct (decide (l = l0)); lia. }
    rewrite Hres. destruct (decide (l = l0)) as [<-|Hne].
    + exists (with_quantity p (quantity_available p - delta)). split.
      * apply list_lookup_insert_eq. by eapply lookup_lt_Some.
      * assert (p0 = p) by congruence. subst p0. simpl. lia.
    + exists p0. split; [|lia]. by rewrite list_lookup_insert_ne.
Qed.

(** Dropping a cart line and giving its quantity back to the stock. *)
Lemma release_invariant s pid l p item :
  invariant s -> dict_get pid (cart s) = Some item ->
  catalog s !! pid = Some l -> heap s !! l = Some p ->
  let s' := mkShoppingCart
              (<[l := with_quantity p (quantity_available p + quantity item)]> (heap s))
              (catalog s) (dict_del pid (cart s)) (next_id s) in
  invariant s' /\ conserved s s'.
Proof.
  intros Hinv Hg Hc Hl s'.
  pose proof Hinv as ((Hcat & Hcart) & Hcoh & Hids & Hnd).
  destruct (invariant_line_ref _ _ _ Hinv Hg) as [Hci _].
  assert (Hprod : product item = l) by congruence.
  split.
  - repeat split; simpl.
    + intros k l0 Hk. rewrite length_insert. exact (Hcat _ _ Hk).
    + apply dict_del_Forall.
      eapply Forall_impl; [exact Hcart|]. intros kv Hkv. by rewrite length_insert.
    + by apply dict_del_Forall.
    + exact Hids.
    + by apply dict_del_NoDup.
  - intros l0 p0 Hl0. simpl.
    rewrite (reserved_del _ _ _ _ Hnd Hg). unfold reserves. rewrite Hprod.
    destruct (decide (l = l0)) as [<-|Hne].
    + exists (with_quantity p (quantity_available p + quantity item)). split.
      * apply list_lookup_insert_eq. by eapply lookup_lt_Some.
      * assert (p0 = p) by congruence. subst p0. simpl. lia.
    + exists p0. split; [|lia]. by rewrite list_lookup_insert_ne.
Qed.
End Invariant.

(** ** Every call returns and keeps the invariant *)

Section Steps.
Context {P : Type} `{Numeric P}.
Implicit Types (s : ShoppingCart P) (p : Product P) (item : CartItem).

Lemma sound_step_stay o s : invariant s -> sound_step o s s.
Proof.
  intros Hinv. repeat split; try apply Hinv; try done.
  intros _. apply conserved_refl.
Qed.

Lemma next_id_fresh s :
  generated_ids s -> catalog s !! ("PID" +:+ format_03d (next_id s)) = None.
Proof.
  intros Hids.
  destruct (catalog s !! ("PID" +:+ format_03d (next_id s))) as [l|] eqn:Hc; [|done].
  destruct (Hids _ _ Hc) as (n & Hlt & Heq).
  apply product_id_inj in Heq. lia.
Qed.

Lemma add_product_sound nm pr qty s :
  invariant s ->
  let pid := "PID" +:+ format_03d (next_id s) in
  sound_step (AddProduct nm pr qty) s
    (mkShoppingCart (heap s ++ [mkProduct pid nm pr qty])
       (<[pid := length (heap s)]> (catalog s)) (cart s) (next_id s + 1)%N).
Proof.
  intros Hinv pid.
  pose proof Hinv as ((Hcat & Hcart) & Hcoh & Hids & Hnd).
  pose proof (next_id_fresh _ Hids) as Hfresh. fold pid in Hfresh.
  repeat split; cbn [heap catalog cart next_id].
  - apply map_Forall_insert_2.
    + rewrite length_app. simpl. lia.
    + intros k l Hk. rewrite length_app. specialize (Hcat _ _ Hk). simpl in *. lia.
  - eapply Forall_impl; [exact Hcart|]. intros kv Hkv.
    rewrite length_app. simpl in *. lia.
  - eapply Forall_impl; [exact Hcoh|]. intros kv Hkv. simpl in *.
    rewrite lookup_insert_ne; [done|]. intros Heq. rewrite <- Heq in Hkv. congruence.
  - apply map_Forall_insert_2.
    + exists (next_id s). cbn [next_id]. split; [lia|done].
    + intros k l Hk. destruct (Hids _ _ Hk) as (n & Hlt & Heq).
      exists n. cbn [next_id]. split; [lia|done].
  - exact Hnd.
  - by apply insert_subseteq.
  - intros _ l p Hl. exists p. split; [|done]. simpl.
    by apply lookup_app_l_Some.
  - done.
Qed.

Lemma clear_cart_sound s :
  invariant s -> sound_step ClearCart s (set_cart [] s).
Proof.
  intros ((Hcat & Hcart) & Hcoh & Hids & Hnd).
  repeat split; simpl; try done; try constructor.
Qed.

Lemma transfer_sound o s pid l p item' delta :
  invariant s -> catalog s !! pid = Some l -> heap s !! l = Some p ->
  product item' = l ->
  quantity item'
  = match dict_get pid (cart s) with
    | Some item => quantity item
    | None => 0
    end + delta ->
  (updates_to_positive o = true -> positive_lines s -> 0 < quantity item') ->
  sound_step o s
    (mkShoppingCart
       (<[l := with_quantity p (quantity_available p - delta)]> (heap s))
       (catalog s) (dict_set pid item' (cart s)) (next_id s)).
Proof.
  intros Hinv Hc Hl Hprod Hqty Hpos.
  destruct (transfer_invariant s pid l p item' delta Hinv Hc Hl Hprod Hqty)
    as [Hinv' Hcons].
  repeat split; try apply Hinv'; try done.
  intros Ho Hlines. apply dict_set_Forall; [done|]. simpl. auto.
Qed.

Lemma release_sound s pid l p item :
  invariant s -> dict_get pid (cart s) = Some item ->
  catalog s !! pid = Some l -> heap s !! l = Some p ->
  sound_step (RemoveFromCart pid) s
    (mkShoppingCart
       (<[l := with_quantity p (quantity_available p + quantity item)]> (heap s))
       (catalog s) (dict_del pid (cart s)) (next_id s)).
Proof.
  intros Hinv Hg Hc Hl.
  destruct (release_invariant s pid l p item Hinv Hg Hc Hl) as [Hinv' Hcons].
  repeat split; try apply Hinv'; try done.
  intros _ Hlines. by apply dict_del_Forall.
Qed.

Lemma add_to_cart_sound pid qty s :
  invariant s ->
  exists b s', add_to_cart pid qty s = Ret b s' /\
               sound_step (AddToCart pid qty) s s'.
Proof.
  intros Hinv.
  destruct (catalog s !! pid) as [l|] eqn:Hc.
  - destruct (invariant_catalog_ref _ _ _ Hinv Hc) as [p Hl].
    destruct (decide (0 < qty <= quantity_available p)) as [Hok|Hno].
    + eexists _, _. split; [by apply (add_to_cart_accepted _ _ _ _ _ Hc Hl)|].
      apply transfer_sound; try done.
      * destruct (dict_get pid (cart s)) as [item|] eqn:Hg; [|done].
        destruct (invariant_line_ref _ _ _ Hinv Hg) as [Hci _]. simpl. congruence.
      * by destruct (dict_get pid (cart s)).
      * intros _ Hlines.
        destruct (dict_get pid (cart s)) as [item|] eqn:Hg; simpl; [|lia].
        pose proof (dict_get_Forall _ _ _ _ Hlines Hg). simpl in *. lia.
    + exists false, s. split; [by eapply add_to_cart_refused|].
      by apply sound_step_stay.
  - exists false, s. split; [by apply add_to_cart_unknown|].
    by apply sound_step_stay.
Qed.

Lemma update_cart_quantity_sound pid new_qty s :
  invariant s ->
  exists b s', update_cart_quantity pid new_qty s = Ret b s' /\
               sound_step (UpdateCartQuantity pid new_qty) s s'.
Proof.
  intros Hinv.
  destruct (dict_get pid (cart s)) as [item|] eqn:Hg.
  - destruct (invariant_line_ref _ _ _ Hinv Hg) as [Hc [p Hl]].
    destruct (Z.lt_trichotomy (new_qty - quantity item) 0) as [Hneg|[Hzero|Hpos]].
    + eexists _, _. split; [by apply (update_shrink _ _ _ _ _ Hg Hl)|].
      replace (quantity_available p + - (new_qty - quantity item))
        with (quantity_available p - (new_qty - quantity item)) by lia.
      apply transfer_sound; try done.
      * rewrite Hg. simpl. lia.
      * simpl. intros Ho _. by apply Z.ltb_lt.
    + exists true, s. split; [by eapply update_same|]. by apply sound_step_stay.
    + destruct (decide (new_qty - quantity item <= quantity_available p))
        as [Hle|Hgt].
      * eexists _, _. split; [by apply (update_grow _ _ _ _ _ Hg Hl)|].
        apply transfer_sound; try done.
        -- rewrite Hg. simpl. lia.
        -- simpl. intros Ho _. by apply Z.ltb_lt.
      * exists false, s. split; [eapply update_grow_refused; eauto; lia|].
        by apply sound_step_stay.
  - exists false, s. split; [by apply update_absent|]. by apply sound_step_stay.
Qed.

Lemma remove_from_cart_sound pid s :
  invariant s ->
  exists b s', remove_from_cart pid s = Ret b s' /\
               sound_step (RemoveFromCart pid) s s'.
Proof.
  intros Hinv.
  destruct (dict_get pid (cart s)) as [item|] eqn:Hg.
  - destruct (invariant_line_ref _ _ _ Hinv Hg) as [Hc [p Hl]].
    eexists _, _. split; [by apply (remove_present _ _ _ _ _ Hg Hc Hl)|].
    by apply release_sound.
  - exists false, s. split; [by apply remove_absent|]. by apply sound_step_stay.
Qed.

Lemma get_cart_total_returns s :
  valid_refs s -> exists total, get_cart_total s = Ret total s.
Proof.
  intros [_ Hcart].
  destruct (sum_subtotals_eq s (dict_values (cart s)) num_zero) as (prices & _ & Heq).
  - unfold dict_values. rewrite Forall_fmap.
    eapply Forall_impl; [exact Hcart|]. by intros kv Hkv.
  - eexists. exact Heq.
Qed.

Lemma step_sound o s :
  invariant s -> exists s', step o s = Ret tt s' /\ sound_step o s s'.
Proof.
  intros Hinv. destruct o as [nm pr qty|pid qty|pid new_qty|pid| |]; simpl.
  - eexists. split; [reflexivity|]. by apply add_product_sound.
  - destruct (add_to_cart_sound pid qty s Hinv) as (b & s' & Heq & Hs).
    exists s'. split; [|done]. unfold bind. by rewrite Heq.
  - destruct (update_cart_quantity_sound pid new_qty s Hinv) as (b & s' & Heq & Hs).
    exists s'. split; [|done]. unfold bind. by rewrite Heq.
  - destruct (remove_from_cart_sound pid s Hinv) as (b & s' & Heq & Hs).
    exists s'. split; [|done]. unfold bind. by rewrite Heq.
  - destruct (get_cart_total_returns s) as [total Heq]; [apply Hinv|].
    exists s. split; [|by apply sound_step_stay]. unfold bind. by rewrite Heq.
  - eexists. split; [reflexivity|]. by apply clear_cart_sound.
Qed.

Lemma run_sound ops s :
  invariant s ->
  exists s', run ops s = Ret tt s' /\ invariant s' /\ catalog s ⊆ catalog s' /\
    (forallb keeps_reservations ops = true -> conserved s s') /\
    (forallb updates_to_positive ops = true ->
     positive_lines s -> positive_lines s').
Proof.
  revert s. induction ops as [|o ops IH]; intros s Hinv.
  - exists s. repeat split; try apply Hinv; try done.
    intros _. apply conserved_refl.
  - destruct (step_sound o s Hinv) as (s1 & Hstep & Hinv1 & Hsub1 & Hcons1 & Hpos1).
    destruct (IH s1 Hinv1) as (s2 & Hrun & Hinv2 & Hsub2 & Hcons2 & Hpos2).
    exists s2. split.
    { simpl. unfold bind. by rewrite Hstep. }
    split; [done|]. split; [by etrans|]. simpl. split.
    + intros [Ho Hops]%andb_prop. eapply conserved_trans; eauto.
    + intros [Ho Hops]%andb_prop Hlines. auto.
Qed.

Lemma reachable_invariant s : reachable s -> invariant s.
Proof.
  intros [ops Hrun].
  destruct (run_sound ops init invariant_init) as (s' & Hrun' & Hinv & _).
  congruence.
Qed.
End Steps.

(** ** The states of the scenario are well formed *)

Lemma shop_valid_refs : valid_refs shop.
Proof.
  split.
  - apply map_Forall_insert_2; [simpl; lia|].
    apply map_Forall_insert_2; [simpl; lia|]. apply map_Forall_empty.
  - constructor.
Qed.

Lemma shop_3_pens_valid_refs : valid_refs shop_3_pens.
Proof.
  split.
  - apply shop_valid_refs.
  - repeat constructor.
Qed.

Lemma shop_3_pens_coherent : coherent shop_3_pens.
Proof. repeat constructor. Qed.

Lemma shop_pens_and_book_valid_refs : valid_refs shop_pens_and_book.
Proof.
  split.
  - apply shop_valid_refs.
  - repeat constructor.
Qed.

Lemma shop_pens_and_book_coherent : coherent shop_pens_and_book.
Proof. repeat constructor. Qed.

Lemma shop_3_pens_reachable :
  reachable shop_3_pens.
Proof. exists (two_products ++ [AddToCart "PID001" 3]). reflexivity. Qed.

(** The scenario of the specification, call by call. *)
Example scenario :
  add_product "Pen" 10 5 init
  = Ret "PID001" (mkShoppingCart [pen] (<["PID001" := 0%nat]> ∅) [] 2%N) /\
  add_product "Book" 50 2 (mkShoppingCart [pen] (<["PID001" := 0%nat]> ∅) [] 2%N)
  = Ret "PID002" shop /\
  add_to_cart "PID001" 3 shop = Ret true shop_3_pens /\
  get_cart_total shop_3_pens = Ret 30 shop_3_pens /\
  add_to_cart "PID001" 5 shop_3_pens = Ret false shop_3_pens /\
  update_cart_quantity "PID001" 1 shop_3_pens
  = Ret true (mkShoppingCart [with_quantity pen 4; book] (catalog shop)
                [("PID001", mkCartItem 0%nat 1)] 3%N) /\
  get_cart_total (mkShoppingCart [with_quantity pen 4; book] (catalog shop)
                    [("PID001", mkCartItem 0%nat 1)] 3%N)
  = Ret 10 (mkShoppingCart [with_quantity pen 4; book] (catalog shop)
              [("PID001", mkCartItem 0%nat 1)] 3%N) /\
  remove_from_cart "PID001"
    (mkShoppingCart [with_quantity pen 4; book] (catalog shop)
       [("PID001", mkCartItem 0%nat 1)] 3%N)
  = Ret true shop /\
  get_cart_total shop = Ret 0 shop.
Proof. repeat split. Qed.

(** * Properties of the cart manager *)

(** ** Conservation of stock *)

(** C1: take any state the cart manager can be in, add a product with stock
    [qty] to it, and then make any sequence of calls that does not contain
    [clear_cart].  Every call returns, the product is still in the catalog,
    and its available stock plus the quantity reserved for it over all cart
    lines is [qty], the stock it was created with.  (The sequence is
    arbitrary, so this holds at every point of it.) *)
Theorem stock_plus_reserved_is_initial_stock
    {P : Type} `{Numeric P} (ops1 ops2 : list (op P))
    (nm : string) (pr : P) (qty : Z) (s1 s2 : ShoppingCart P) (pid : string) :
  run ops1 init = Ret tt s1 ->
  add_product nm pr qty s1 = Ret pid s2 ->
  forallb keeps_reservations ops2 = true ->
  exists s3 stock r,
    run ops2 s2 = Ret tt s3 /\
    stock_available pid s3 = Some stock /\
    reserved_for pid s3 = Some r /\
    stock + r = qty.
Proof.
  intros Hrun1 Hadd Hkeep.
  assert (Hinv1 : invariant s1) by (apply reachable_invariant; by exists ops1).
  rewrite add_product_eq in Hadd. cbv zeta in Hadd. injection Hadd as Hpid Hs2.
  pose proof (add_product_sound nm pr qty s1 Hinv1) as (Hinv2 & _).
  cbv zeta in Hinv2. subst pid s2.
  destruct (run_sound ops2 _ Hinv2) as (s3 & Hrun2 & _ & Hsub & Hcons & _).
  specialize (Hcons Hkeep).
  set (l := length (heap s1)).
  assert (Hr1 : reserved l (cart s1) = 0).
  { apply reserved_beyond. apply Hinv1. }
  destruct (Hcons l (mkProduct ("PID" +:+ format_03d (next_id s1)) nm pr qty))
    as (p' & Hl3 & Heq).
  { cbn [heap]. by apply list_lookup_middle. }
  cbn [cart quantity_available] in Heq.
  assert (Hc3 : catalog s3 !! ("PID" +:+ format_03d (next_id s1)) = Some l).
  { eapply lookup_weaken; [|exact Hsub]. cbn [catalog]. apply lookup_insert_eq. }
  exists s3, (quantity_available p'), (reserved l (cart s3)).
  unfold stock_available, reserved_for. rewrite Hc3, Hl3.
  repeat split; [done|]. lia.
Qed.

Lemma stock_plus_reserved_is_initial_stock_witness :
  exists s3 stock r,
    run [AddToCart "PID002" 1; AddToCart "PID001" 3;
         UpdateCartQuantity "PID001" 1; AddToCart "PID001" 2;
         RemoveFromCart "PID002"]
      (mkShoppingCart [mkProduct "PID001" "Pen" 10 5; mkProduct "PID002" "Book" 50 2]
         (<["PID002" := 1%nat]> (<["PID001" := 0%nat]> ∅)) [] 3%N)
    = Ret tt s3 /\
    stock_available "PID002" s3 = Some stock /\
    reserved_for "PID002" s3 = Some r /\
    stock + r = 2.
Proof.
  apply (stock_plus_reserved_is_initial_stock
           [AddProduct "Pen" 10 5] _ "Book" 50 2
           (mkShoppingCart [mkProduct "PID001" "Pen" 10 5]
              (<["PID001" := 0%nat]> ∅) [] 2%N)).
  - reflexivity.
  - reflexivity.
  - reflexivity.
Defined.

(** ** [add_to_cart] *)

(** C2, as the code has it: [add_to_cart pid qty] returns [False] and leaves
    the state as it is exactly when [pid] is not in the catalog or [qty] is
    not within [0 < qty <= stock]; otherwise it returns [True], takes [qty]
    off the product's stock, and adds [qty] to the cart line of [pid] or, when
    there is none, files a new line of quantity [qty].  One of the three cases
    applies to every state. *)
Theorem add_to_cart_spec
    {P : Type} `{Numeric P} (s : ShoppingCart P) (pid : string) (qty : Z) :
  valid_refs s ->
  (catalog s !! pid = None \/ exists stock, stock_available pid s = Some stock) /\
  (catalog s !! pid = None -> add_to_cart pid qty s = Ret false s) /\
  (forall stock, stock_available pid s = Some stock ->
     ~ (0 < qty <= stock) -> add_to_cart pid qty s = Ret false s) /\
  (forall stock, stock_available pid s = Some stock ->
     0 < qty <= stock ->
     exists l p s',
       catalog s !! pid = Some l /\ heap s !! l = Some p /\
       add_to_cart pid qty s = Ret true s' /\
       heap s' = <[l := with_quantity p (stock - qty)]> (heap s) /\
       stock_available pid s' = Some (stock - qty) /\
       cart s' = dict_set pid
                   match dict_get pid (cart s) with
                   | Some item => with_item_quantity item (quantity item + qty)
                   | None => mkCartItem l qty
                   end (cart s) /\
       dict_get pid (cart s')
       = Some match dict_get pid (cart s) with
              | Some item => mkCartItem (product item) (quantity item + qty)
              | None => mkCartItem l qty
              end /\
       catalog s' = catalog s /\ next_id s' = next_id s).
Proof.
  intros [Hcat _]. unfold stock_available.
  destruct (catalog s !! pid) as [l|] eqn:Hc.
  - destruct (lookup_lt_is_Some_2 _ _ (Hcat _ _ Hc)) as [p Hl]. rewrite Hl.
    split; [right; by eexists|]. split; [done|]. split.
    + intros stock [= <-] Hno. by eapply add_to_cart_refused.
    + intros stock [= <-] Hok. eexists l, p, _.
      split; [done|]. split; [done|].
      split; [by apply add_to_cart_accepted|]. cbn [heap catalog cart next_id].
      rewrite Hc, dict_get_set_eq, list_lookup_insert_eq by (by eapply lookup_lt_Some).
      repeat split.
  - split; [by left|]. split; [intros _; by apply add_to_cart_unknown|].
    split; intros stock [=].
Qed.

Lemma add_to_cart_spec_witness :
  add_to_cart "PID001" 6 shop = Ret false shop /\
  exists l p s',
    catalog shop !! "PID001" = Some l /\ heap shop !! l = Some p /\
    add_to_cart "PID001" 3 shop = Ret true s' /\
    heap s' = <[l := with_quantity p (5 - 3)]> (heap shop) /\
    stock_available "PID001" s' = Some (5 - 3) /\
    cart s' = dict_set "PID001" (mkCartItem l 3) (cart shop) /\
    dict_get "PID001" (cart s') = Some (mkCartItem l 3) /\
    catalog s' = catalog shop /\ next_id s' = next_id shop.
Proof.
  split.
  - apply (proj1 (proj2 (proj2 (add_to_cart_spec shop "PID001" 6 shop_valid_refs))) 5).
    + reflexivity.
    + lia.
  - apply (proj2 (proj2 (proj2 (add_to_cart_spec shop "PID001" 3 shop_valid_refs))) 5).
    + reflexivity.
    + lia.
Defined.

(** C2 as the specification words it fails: the pen is in the catalog and its stock of
    5 covers a quantity of 0, and still [add_to_cart] refuses. *)
Lemma add_to_cart_refuses_zero :
  catalog shop !! "PID001" = Some 0%nat /\
  stock_available "PID001" shop = Some 5 /\
  0 <= 5 /\
  add_to_cart "PID001" 0 shop = Ret false shop /\
  ~ exists s', add_to_cart "PID001" 0 shop = Ret true s'.
Proof.
  assert (Hrun : add_to_cart "PID001" 0 shop = Ret false shop) by reflexivity.
  repeat split; try reflexivity; try lia.
  intros [s' Hs']. rewrite Hrun in Hs'. discriminate.
Qed.

(** ** [update_cart_quantity] *)

(** C3: [update_cart_quantity pid new_qty] returns [False] and changes nothing
    when the cart has no line for [pid].  Otherwise, with
    [diff = new_qty - quantity] of the line: for [diff = 0] it returns [True]
    and changes nothing; for [diff > 0] it returns [True] exactly when
    [diff <= stock], then taking [diff] off the stock and setting the line to
    [new_qty], and returns [False] with nothing changed when the stock is
    short; for [diff < 0] it always returns [True], gives [- diff] back to the
    stock and sets the line to [new_qty]. *)
Theorem update_cart_quantity_spec
    {P : Type} `{Numeric P} (s : ShoppingCart P) (pid : string) (new_qty : Z) :
  valid_refs s ->
  (dict_get pid (cart s) = None ->
   update_cart_quantity pid new_qty s = Ret false s) /\
  (forall item, dict_get pid (cart s) = Some item ->
   exists p, heap s !! product item = Some p /\
     let diff := new_qty - quantity item in
     let stock := quantity_available p in
     (diff = 0 -> update_cart_quantity pid new_qty s = Ret true s) /\
     (0 < diff -> diff <= stock ->
      exists s', update_cart_quantity pid new_qty s = Ret true s' /\
        heap s' = <[product item := with_quantity p (stock - diff)]> (heap s) /\
        heap s' !! product item = Some (with_quantity p (stock - diff)) /\
        cart s' = dict_set pid (with_item_quantity item new_qty) (cart s) /\
        dict_get pid (cart s') = Some (mkCartItem (product item) new_qty) /\
        catalog s' = catalog s /\ next_id s' = next_id s) /\
     (0 < diff -> stock < diff ->
      update_cart_quantity pid new_qty s = Ret false s) /\
     (diff < 0 ->
      exists s', update_cart_quantity pid new_qty s = Ret true s' /\
        heap s' = <[product item := with_quantity p (stock + - diff)]> (heap s) /\
        heap s' !! product item = Some (with_quantity p (stock + - diff)) /\
        cart s' = dict_set pid (with_item_quantity item new_qty) (cart s) /\
        dict_get pid (cart s') = Some (mkCartItem (product item) new_qty) /\
        catalog s' = catalog s /\ next_id s' = next_id s)).
Proof.
  intros [_ Hcart]. split; [apply update_absent|].
  intros item Hg.
  pose proof (dict_get_Forall _ _ _ _ Hcart Hg) as Hlt. simpl in Hlt.
  destruct (lookup_lt_is_Some_2 _ _ Hlt) as [p Hl].
  exists p. split; [done|]. cbv zeta. repeat apply conj.
  - intros Hdiff. by eapply update_same.
  - intros Hpos Hle. eexists. split; [by apply (update_grow _ _ _ _ _ Hg Hl)|].
    cbn [heap catalog cart next_id].
    rewrite dict_get_set_eq, list_lookup_insert_eq by done. done.
  - intros Hpos Hgt. by eapply update_grow_refused.
  - intros Hneg. eexists. split; [by apply (update_shrink _ _ _ _ _ Hg Hl)|].
    cbn [heap catalog cart next_id].
    rewrite dict_get_set_eq, list_lookup_insert_eq by done. done.
Qed.

Lemma update_cart_quantity_spec_witness :
  update_cart_quantity "PID002" 1 shop_3_pens = Ret false shop_3_pens /\
  update_cart_quantity "PID001" 6 shop_3_pens = Ret false shop_3_pens /\
  exists s', update_cart_quantity "PID001" 1 shop_3_pens = Ret true s' /\
    heap s' !! 0%nat = Some (mkProduct "PID001" "Pen" 10 4) /\
    dict_get "PID001" (cart s') = Some (mkCartItem 0%nat 1).
Proof.
  pose proof (update_cart_quantity_spec shop_3_pens "PID002" 1
                shop_3_pens_valid_refs) as [Habsent _].
  pose proof (update_cart_quantity_spec shop_3_pens "PID001" 6
                shop_3_pens_valid_refs) as [_ Hsix].
  pose proof (update_cart_quantity_spec shop_3_pens "PID001" 1
                shop_3_pens_valid_refs) as [_ Hone].
  split; [apply Habsent; reflexivity|]. split.
  - destruct (Hsix (mkCartItem 0%nat 3) eq_refl) as (p & Hp & _ & _ & Hshort & _).
    injection Hp as <-. apply Hshort; simpl; lia.
  - destruct (Hone (mkCartItem 0%nat 3) eq_refl) as (p & Hp & _ & _ & _ & Hless).
    injection Hp as <-. destruct Hless as (s' & Hs' & _ & Hstock & _ & Hline & _).
    + simpl. lia.
    + exists s'. split; [exact Hs'|]. split; [exact Hstock|exact Hline].
Defined.

(** ** [remove_from_cart] *)

(** C4: [remove_from_cart pid] returns [False] and changes nothing when the
    cart has no line for [pid].  When it has one, the call returns [True];
    the stock of the product the line refers to is afterwards its stock
    before plus the whole quantity of the line, its identifier, name and price
    are as before, and no other product has changed; the line is deleted and
    every other line is as before; the catalog and the counter are as
    before; and a second [remove_from_cart pid] right after returns [False].
    (In a coherent state: the product the line refers to is the one the
    catalog holds under [pid], which the code updates.) *)
Theorem remove_from_cart_spec
    {P : Type} `{Numeric P} (s : ShoppingCart P) (pid : string) :
  valid_refs s -> coherent s ->
  (dict_get pid (cart s) = None -> remove_from_cart pid s = Ret false s) /\
  (forall item, dict_get pid (cart s) = Some item ->
   exists p p' s',
     heap s !! product item = Some p /\
     remove_from_cart pid s = Ret true s' /\
     heap s' !! product item = Some p' /\
     quantity_available p' = quantity_available p + quantity item /\
     product_id p' = product_id p /\ name p' = name p /\ price p' = price p /\
     stock_available pid s' = Some (quantity_available p + quantity item) /\
     (forall l, l <> product item -> heap s' !! l = heap s !! l) /\
     length (heap s') = length (heap s) /\
     dict_get pid (cart s') = None /\
     (forall k, k <> pid -> dict_get k (cart s') = dict_get k (cart s)) /\
     cart s' = dict_del pid (cart s) /\
     heap s' = <[product item :=
                   with_quantity p (quantity_available p + quantity item)]> (heap s) /\
     catalog s' = catalog s /\ next_id s' = next_id s /\
     remove_from_cart pid s' = Ret false s').
Proof.
  intros [_ Hcart] Hcoh. split; [apply remove_absent|].
  intros item Hg.
  pose proof (dict_get_Forall _ _ _ _ Hcart Hg) as Hlt. simpl in Hlt.
  pose proof (dict_get_Forall _ _ _ _ Hcoh Hg) as Hc. simpl in Hc.
  destruct (lookup_lt_is_Some_2 _ _ Hlt) as [p Hl].
  eexists p, (with_quantity p (quantity_available p + quantity item)), _.
  split; [done|].
  split; [by apply (remove_present _ _ _ _ _ Hg Hc Hl)|].
  cbn [heap catalog cart next_id].
  split; [by apply list_lookup_insert_eq|].
  split; [reflexivity|]. split; [reflexivity|]. split; [reflexivity|].
  split; [reflexivity|].
  split.
  { unfold stock_available. cbn [heap catalog]. rewrite Hc.
    by rewrite list_lookup_insert_eq. }
  split; [intros l Hne; by apply list_lookup_insert_ne|].
  split; [apply length_insert|].
  split; [apply dict_get_del_eq|].
  split; [intros k Hne; by apply dict_get_del_ne|].
  repeat split. apply remove_absent. cbn [cart]. apply dict_get_del_eq.
Qed.

Lemma remove_from_cart_spec_witness :
  remove_from_cart "PID003" shop_pens_and_book = Ret false shop_pens_and_book /\
  exists s', remove_from_cart "PID001" shop_pens_and_book = Ret true s' /\
    stock_available "PID001" s' = Some 5 /\
    heap s' !! 0%nat = Some (mkProduct "PID001" "Pen" 10 5) /\
    heap s' !! 1%nat = Some (mkProduct "PID002" "Book" 50 1) /\
    dict_get "PID001" (cart s') = None /\
    dict_get "PID002" (cart s') = Some (mkCartItem 1%nat 1) /\
    remove_from_cart "PID001" s' = Ret false s'.
Proof.
  pose proof (remove_from_cart_spec shop_pens_and_book "PID003"
                shop_pens_and_book_valid_refs shop_pens_and_book_coherent)
    as [Habsent _].
  pose proof (remove_from_cart_spec shop_pens_and_book "PID001"
                shop_pens_and_book_valid_refs shop_pens_and_book_coherent)
    as [_ Hpen].
  split; [apply Habsent; reflexivity|].
  destruct (Hpen (mkCartItem 0%nat 3) eq_refl)
    as (p & p' & s' & Hp & Hs' & Hp' & Hq & Hid & Hnm & Hpr & Hstock & Hframe
        & _ & Hgone & Hlines & _ & _ & _ & _ & Hagain).
  injection Hp as <-. cbn [product] in Hp', Hframe. exists s'.
  split; [exact Hs'|]. split; [exact Hstock|]. split.
  { rewrite Hp'. destruct p' as [i n pr q]. simpl in Hq, Hid, Hnm, Hpr.
    by rewrite Hq, Hid, Hnm, Hpr. }
  split; [by rewrite (Hframe 1%nat)|].
  split; [exact Hgone|]. split; [by rewrite (Hlines "PID002")|exact Hagain].
Defined.

(** ** [get_cart_total] *)



(** ** [clear_cart] *)

(** C6: [clear_cart] always returns, leaves the cart without a line, and
    leaves the products with their stock, the catalog and the identifier
    counter as they were: what was reserved is not given back. *)
Theorem clear_cart_spec {P : Type} `{Numeric P} (s : ShoppingCart P) :
  exists s', clear_cart s = Ret tt s' /\
    cart s' = [] /\
    heap s' = heap s /\ catalog s' = catalog s /\ next_id s' = next_id s /\
    forall pid, stock_available pid s' = stock_available pid s.
Proof. exists (set_cart [] s). repeat split. Qed.

(** ** The stock of a [Product] *)

(** C7, as the code has it: over any sequence of [decrease_quantity], setter
    and [increase_quantity] calls in which every [increase_quantity] amount is
    non-negative, a stock that is not negative never becomes negative (and no
    stock ever falls below the lesser of zero and what it was).  Of every
    product, with no condition: the setter ignores a negative value and sets
    any other; [decrease_quantity] returns [True] and takes [amount] off the
    stock when [0 < amount <= stock], and returns [False] without any effect
    otherwise. *)
Theorem quantity_available_nonneg
    {P : Type} `{Numeric P} (p : Product P) (ops : list (product_op)) :
  (forallb restocks_nonneg ops = true ->
     Z.min 0 (quantity_available p)
     <= quantity_available (apply_product_ops ops p) /\
     (0 <= quantity_available p ->
      0 <= quantity_available (apply_product_ops ops p))) /\
  (forall value, value < 0 -> set_quantity_available value p = p) /\
  (forall value, 0 <= value ->
     quantity_available (set_quantity_available value p) = value) /\
  (forall amount, 0 < amount <= quantity_available p ->
     decrease_quantity amount p
     = (true, with_quantity p (quantity_available p - amount)) /\
     quantity_available (decrease_quantity amount p).2
     = quantity_available p - amount) /\
  (forall amount, ~ (0 < amount <= quantity_available p) ->
     decrease_quantity amount p = (false, p)).
Proof.
  split.
  - intros Hops.
    assert (Hmin : Z.min 0 (quantity_available p)
                   <= quantity_available (apply_product_ops ops p)).
    { revert p Hops. unfold apply_product_ops.
      induction ops as [|o ops IH]; intros p Hops; simpl; [lia|].
      simpl in Hops. apply andb_prop in Hops as [Ho Hops].
      specialize (IH (apply_product_op p o) Hops).
      assert (Z.min 0 (quantity_available p)
              <= quantity_available (apply_product_op p o)); [|lia].
      destruct o as [amount|amount|value]; simpl.
      - unfold decrease_quantity.
        destruct (0 <? amount) eqn:Hpos; [|simpl; lia].
        destruct (amount <=? quantity_available p) eqn:Hle; [|simpl; lia].
        simpl. apply Z.leb_le in Hle. lia.
      - simpl in Ho. apply Z.leb_le in Ho. lia.
      - unfold set_quantity_available.
        destruct (0 <=? value) eqn:Hv; [|lia].
        simpl. apply Z.leb_le in Hv. lia. }
    split; [done|]. lia.
  - split; [|split; [|split]].
    + intros value Hneg. unfold set_quantity_available.
      by rewrite (proj2 (Z.leb_gt _ _)) by lia.
    + intros value Hv. unfold set_quantity_available.
      by rewrite (proj2 (Z.leb_le _ _)) by lia.
    + intros amount Hok. by rewrite decrease_quantity_accepts.
    + intros amount. apply decrease_quantity_refuses.
Qed.

Lemma quantity_available_nonneg_witness :
  0 <= quantity_available
         (apply_product_ops
            [Decrease 3; SetQuantity (-4); Increase 2; Decrease 9; SetQuantity 0]
            (mkProduct "PID001" "Pen" 10 5)) /\
  set_quantity_available (-1) (mkProduct "PID009" "Nib" 1 (-5))
  = mkProduct "PID009" "Nib" 1 (-5) /\
  quantity_available
    (decrease_quantity 3 (mkProduct "PID001" "Pen" 10 5)).2 = 2 /\
  decrease_quantity 6 (mkProduct "PID001" "Pen" 10 5)
  = (false, mkProduct "PID001" "Pen" 10 5).
Proof.
  split; [|split; [|split]].
  - apply (proj1 (quantity_available_nonneg (mkProduct "PID001" "Pen" 10 5)
             [Decrease 3; SetQuantity (-4); Increase 2; Decrease 9; SetQuantity 0])).
    + reflexivity.
    + simpl. lia.
  - apply (proj1 (proj2 (quantity_available_nonneg
             (mkProduct "PID009" "Nib" 1 (-5)) []))). lia.
  - apply (proj1 (proj2 (proj2 (proj2 (quantity_available_nonneg
             (mkProduct "PID001" "Pen" 10 5) []))))). simpl. lia.
  - apply (proj2 (proj2 (proj2 (proj2 (quantity_available_nonneg
             (mkProduct "PID001" "Pen" 10 5) []))))). simpl. lia.
Defined.

(** C7 as the specification words it fails: [increase_quantity] adds whatever amount
    it is given, and a negative amount takes the stock of the pen from 5
    to -1. *)
Lemma increase_quantity_goes_negative :
  0 <= quantity_available pen /\
  quantity_available (apply_product_ops [Increase (-6)] pen) = -1 /\
  ~ 0 <= quantity_available (apply_product_ops [Increase (-6)] pen).
Proof. simpl. repeat split; lia. Qed.

(** ** Quantities of the cart lines *)

(** C8, as the code has it: in every state reached from a fresh cart manager
    by calls in which every [update_cart_quantity] is given a positive
    quantity, every cart line has a positive quantity. *)
Theorem cart_lines_positive
    {P : Type} `{Numeric P} (ops : list (op P)) (s : ShoppingCart P) :
  forallb updates_to_positive ops = true ->
  run ops init = Ret tt s ->
  positive_lines s /\
  forall pid item, dict_get pid (cart s) = Some item -> 0 < quantity item.
Proof.
  intros Hops Hrun.
  destruct (run_sound ops init invariant_init) as (s' & Hrun' & _ & _ & _ & Hpos).
  assert (s' = s) as -> by congruence.
  assert (Hlines : positive_lines s) by (apply Hpos; [done|constructor]).
  split; [done|]. intros pid item Hg.
  exact (dict_get_Forall _ _ _ _ Hlines Hg).
Qed.

Lemma cart_lines_positive_witness :
  positive_lines shop_3_pens.
Proof.
  apply (cart_lines_positive (two_products ++ [AddToCart "PID001" 3]) shop_3_pens).
  - reflexivity.
  - reflexivity.
Defined.

(** C8 as the specification words it fails: [update_cart_quantity] sets the line to
    the quantity it is given, and 0 leaves a line of quantity 0 in the
    cart. *)
Lemma update_to_zero_keeps_line :
  exists s,
    run (two_products ++ [AddToCart "PID001" 3; UpdateCartQuantity "PID001" 0]) init
    = Ret tt s /\
    dict_get "PID001" (cart s) = Some (mkCartItem 0%nat 0) /\
    ~ positive_lines s.
Proof.
  eexists. split; [reflexivity|]. split; [reflexivity|].
  intros Hlines. apply Forall_cons in Hlines as [Hq _]. simpl in Hq. lia.
Qed.

(** ** [add_product] *)

(** C9: in every state the cart manager can be in, [add_product] returns
    ["PID"] followed by the counter, zero-padded to three digits; that
    identifier is not a key of the catalog; afterwards the catalog holds the
    new product under it, every other entry of the catalog and every product
    that existed are as before, the cart is as before, and the counter is one
    more.  The counter starts at 1: on a fresh cart manager the first two
    calls return ["PID001"] and ["PID002"]. *)
Theorem add_product_spec
    {P : Type} `{Numeric P} (s : ShoppingCart P) (nm : string) (pr : P) (qty : Z) :
  reachable s ->
  let pid := "PID" +:+ format_03d (next_id s) in
  exists s' l,
    add_product nm pr qty s = Ret pid s' /\
    catalog s !! pid = None /\
    catalog s' !! pid = Some l /\
    heap s' !! l = Some (mkProduct pid nm pr qty) /\
    (forall k, k <> pid -> catalog s' !! k = catalog s !! k) /\
    (forall l' p, heap s !! l' = Some p -> heap s' !! l' = Some p) /\
    (forall k stock, stock_available k s = Some stock ->
                     stock_available k s' = Some stock) /\
    cart s' = cart s /\
    next_id s' = (next_id s + 1)%N /\
    next_id (init (P:=P)) = 1%N /\
    (forall nm1 (pr1 : P) qty1 nm2 (pr2 : P) qty2, exists s1 s2,
       add_product nm1 pr1 qty1 init = Ret "PID001" s1 /\
       add_product nm2 pr2 qty2 s1 = Ret "PID002" s2).
Proof.
  intros Hreach pid.
  pose proof (reachable_invariant s Hreach) as ((Hcat & Hcart) & Hcoh & Hids & Hnd).
  pose proof (next_id_fresh _ Hids) as Hfresh. fold pid in Hfresh.
  eexists _, (length (heap s)). split; [apply add_product_eq|].
  cbn [heap catalog cart next_id]. fold pid.
  split; [done|]. split; [apply lookup_insert_eq|].
  split; [by apply list_lookup_middle|].
  split; [intros k Hk; by apply lookup_insert_ne|].
  split; [intros l' p Hl'; by apply lookup_app_l_Some|].
  split.
  { intros k stock. unfold stock_available. cbn [heap catalog].
    destruct (decide (k = pid)) as [->|Hne]; [by rewrite Hfresh|].
    rewrite lookup_insert_ne by done.
    destruct (catalog s !! k) as [l'|]; [|done].
    destruct (heap s !! l') as [p|] eqn:Hl'; [|done].
    by rewrite (lookup_app_l_Some _ _ _ _ Hl'). }
  repeat split. intros. by eexists _, _.
Qed.

Lemma add_product_spec_witness :
  exists s' l,
    add_product "Ink" 7 4 shop_3_pens = Ret "PID003" s' /\
    catalog shop_3_pens !! "PID003" = None /\
    catalog s' !! "PID003" = Some l /\
    heap s' !! l = Some (mkProduct "PID003" "Ink" 7 4) /\
    catalog s' !! "PID001" = Some 0%nat /\
    cart s' = cart shop_3_pens /\
    next_id s' = 4%N.
Proof.
  destruct (add_product_spec shop_3_pens "Ink" 7 4 shop_3_pens_reachable)
    as (s' & l & Hadd & Hfresh & Hnew & Hobj & Hothers & _ & _ & Hcart & Hnext & _).
  exists s', l. split; [exact Hadd|]. split; [exact Hfresh|].
  split; [exact Hnew|]. split; [exact Hobj|].
  split; [by rewrite Hothers|]. split; [exact Hcart|exact Hnext].
Defined.

(** ** The cart refers into the catalog *)

(** C10: in every state the cart manager can be in, every key of the cart is
    a key of the catalog, the product the cart line refers to is the object
    the catalog holds under that key, and [remove_from_cart] never raises: on
    a key of the cart its catalog lookup finds the product and the call
    returns [True]. *)
Theorem cart_refers_to_catalog
    {P : Type} `{Numeric P} (s : ShoppingCart P) :
  reachable s ->
  coherent s /\
  (forall pid, pid ∈ dict_keys (cart s) ->
     exists item p s',
       dict_get pid (cart s) = Some item /\
       catalog s !! pid = Some (product item) /\
       heap s !! product item = Some p /\
       remove_from_cart pid s = Ret true s') /\
  (forall pid, exists b s', remove_from_cart pid s = Ret b s').
Proof.
  intros Hreach. pose proof (reachable_invariant s Hreach) as Hinv.
  split; [apply Hinv|]. split.
  - intros pid Hin. apply dict_get_is_Some_keys in Hin as [item Hg].
    destruct (invariant_line_ref _ _ _ Hinv Hg) as [Hc [p Hl]].
    eexists item, p, _. split; [done|]. split; [done|]. split; [done|].
    by apply (remove_present _ _ _ _ _ Hg Hc Hl).
  - intros pid.
    destruct (remove_from_cart_sound pid s Hinv) as (b & s' & Heq & _). eauto.
Qed.

Lemma cart_refers_to_catalog_witness :
  exists item p s',
    dict_get "PID001" (cart shop_3_pens) = Some item /\
    catalog shop_3_pens !! "PID001" = Some (product item) /\
    heap shop_3_pens !! product item = Some p /\
    remove_from_cart "PID001" shop_3_pens = Ret true s'.
Proof.
  apply (proj1 (proj2 (cart_refers_to_catalog shop_3_pens shop_3_pens_reachable))).
  apply list_elem_of_here.
Defined.

(** * Further properties *)

(** ** More on the dictionary *)

Section DictMore.
Context {V : Type}.
Implicit Types (d : dict V) (k : string) (v : V).

Lemma dict_set_set k v1 v2 d : dict_set k v2 (dict_set k v1 d) = dict_set k v2 d.
Proof.
  induction d as [|[k' v'] d IH]; simpl.
  - by rewrite decide_True.
  - destruct (decide (k' = k)) as [->|Hne]; simpl.
    + by rewrite decide_True.
    + rewrite decide_False by done. by rewrite IH.
Qed.

Lemma dict_set_same k v d : dict_get k d = Some v -> dict_set k v d = d.
Proof.
  induction d as [|[k' v'] d IH]; simpl; [done|].
  destruct (decide (k' = k)) as [->|Hne].
  - by intros [= ->].
  - intros Hg. by rewrite IH.
Qed.

Lemma dict_del_set_absent k v d :
  dict_get k d = None -> dict_del k (dict_set k v d) = d.
Proof.
  induction d as [|[k' v'] d IH]; simpl.
  - intros _. by rewrite decide_True.
  - destruct (decide (k' = k)) as [->|Hne]; [done|].
    intros Hg. simpl. rewrite decide_False by done. by rewrite IH.
Qed.

Lemma dict_values_set_absent k v d :
  dict_get k d = None -> dict_values (dict_set k v d) = dict_values d ++ [v].
Proof.
  induction d as [|[k' v'] d IH]; simpl; [done|].
  destruct (decide (k' = k)) as [->|Hne]; [done|].
  intros Hg. simpl. by rewrite IH.
Qed.
End DictMore.

(** ** Every call has one of the five effects *)

Section StepEffects.
Context {P : Type} `{Numeric P}.
Implicit Types (s : ShoppingCart P) (p : Product P) (item : CartItem).

Lemma with_quantity_same p : with_quantity p (quantity_available p) = p.
Proof. by destruct p. Qed.

Lemma add_to_cart_effect pid qty s :
  invariant s ->
  exists b s', add_to_cart pid qty s = Ret b s' /\ effect (AddToCart pid qty) s s'.
Proof.
  intros Hinv.
  destruct (catalog s !! pid) as [l|] eqn:Hc.
  - destruct (invariant_catalog_ref _ _ _ Hinv Hc) as [p Hl].
    destruct (decide (0 < qty <= quantity_available p)) as [Hok|Hno].
    + eexists _, _. split; [by apply (add_to_cart_accepted _ _ _ _ _ Hc Hl)|].
      apply (effect_transfer _ s pid l p _ qty); try done.
      * destruct (dict_get pid (cart s)) as [item|] eqn:Hg; [|done].
        destruct (invariant_line_ref _ _ _ Hinv Hg) as [Hci _]. simpl. congruence.
      * unfold line_quantity. by destruct (dict_get pid (cart s)).
      * intros _. apply Hok.
    + exists false, s. split; [by eapply add_to_cart_refused|]. constructor.
  - exists false, s. split; [by apply add_to_cart_unknown|]. constructor.
Qed.

Lemma update_cart_quantity_effect pid new_qty s :
  invariant s ->
  exists b s', update_cart_quantity pid new_qty s = Ret b s' /\
               effect (UpdateCartQuantity pid new_qty) s s'.
Proof.
  intros Hinv.
  destruct (dict_get pid (cart s)) as [item|] eqn:Hg.
  - destruct (invariant_line_ref _ _ _ Hinv Hg) as [Hc [p Hl]].
    destruct (Z.lt_trichotomy (new_qty - quantity item) 0) as [Hneg|[Hzero|Hpos]].
    + eexists _, _. split; [by apply (update_shrink _ _ _ _ _ Hg Hl)|].
      replace (quantity_available p + - (new_qty - quantity item))
        with (quantity_available p - (new_qty - quantity item)) by lia.
      apply (effect_transfer _ s pid (product item) p _ (new_qty - quantity item));
        try done.
      * unfold line_quantity. rewrite Hg. simpl. lia.
      * lia.
    + exists true, s. split; [by eapply update_same|]. constructor.
    + destruct (decide (new_qty - quantity item <= quantity_available p))
        as [Hle|Hgt].
      * eexists _, _. split; [by apply (update_grow _ _ _ _ _ Hg Hl)|].
        apply (effect_transfer _ s pid (product item) p _ (new_qty - quantity item));
          try done.
        unfold line_quantity. rewrite Hg. simpl. lia.
      * exists false, s. split; [eapply update_grow_refused; eauto; lia|].
        constructor.
  - exists false, s. split; [by apply update_absent|]. constructor.
Qed.

Lemma remove_from_cart_effect pid s :
  invariant s ->
  exists b s', remove_from_cart pid s = Ret b s' /\ effect (RemoveFromCart pid) s s'.
Proof.
  intros Hinv.
  destruct (dict_get pid (cart s)) as [item|] eqn:Hg.
  - destruct (invariant_line_ref _ _ _ Hinv Hg) as [Hc [p Hl]].
    eexists _, _. split; [by apply (remove_present _ _ _ _ _ Hg Hc Hl)|].
    by apply effect_release.
  - exists false, s. split; [by apply remove_absent|]. constructor.
Qed.

Lemma step_effect o s :
  invariant s ->
  exists s', step o s = Ret tt s' /\ effect o s s' /\ invariant s'.
Proof.
  intros Hinv.
  destruct (step_sound o s Hinv) as (s1 & Hstep & Hinv1 & _).
  exists s1. split; [done|]. split; [|done].
  destruct o as [nm pr qty|pid qty|pid new_qty|pid| |];
    unfold step, bind in Hstep.
  - rewrite add_product_eq in Hstep. cbv zeta in Hstep.
    injection Hstep as <-. constructor.
  - destruct (add_to_cart_effect pid qty s Hinv) as (b & s' & Heq & Heff).
    rewrite Heq in Hstep. injection Hstep as <-. done.
  - destruct (update_cart_quantity_effect pid new_qty s Hinv) as (b & s' & Heq & Heff).
    rewrite Heq in Hstep. injection Hstep as <-. done.
  - destruct (remove_from_cart_effect pid s Hinv) as (b & s' & Heq & Heff).
    rewrite Heq in Hstep. injection Hstep as <-. done.
  - destruct (get_cart_total_returns s) as [total Heq]; [apply Hinv|].
    rewrite Heq in Hstep. injection Hstep as <-. constructor.
  - injection Hstep as <-. constructor.
Qed.

(** A property kept by the five effects holds after every sequence of calls. *)
Lemma run_induct (I : ShoppingCart P -> Prop) (ok : op P -> bool) :
  (forall o s s', invariant s -> I s -> ok o = true -> effect o s s' -> I s') ->
  forall ops s, invariant s -> I s -> forallb ok ops = true ->
    exists s', run ops s = Ret tt s' /\ invariant s' /\ I s'.
Proof.
  intros Hkeep ops. induction ops as [|o ops IH]; intros s Hinv HI Hok.
  - by exists s.
  - simpl in Hok. apply andb_prop in Hok as [Ho Hops].
    destruct (step_effect o s Hinv) as (s1 & Hstep & Heff & Hinv1).
    destruct (IH s1 Hinv1 (Hkeep _ _ _ Hinv HI Ho Heff) Hops) as (s2 & Hrun & Hinv2 & HI2).
    exists s2. split; [|done]. simpl. unfold bind. by rewrite Hstep.
Qed.

(** Reading a store in which the stock of one product was set. *)
Lemma restock_lookup (h : list (Product P)) l p q l0 p0' :
  h !! l = Some p ->
  <[l := with_quantity p q]> h !! l0 = Some p0' ->
  exists p0, h !! l0 = Some p0 /\
    product_id p0' = product_id p0 /\ name p0' = name p0 /\ price p0' = price p0 /\
    (l0 <> l -> p0' = p0) /\
    (l0 = l -> p0 = p /\ quantity_available p0' = q).
Proof.
  intros Hl Hl0. destruct (decide (l0 = l)) as [->|Hne].
  - rewrite list_lookup_insert_eq in Hl0 by (by eapply lookup_lt_Some).
    injection Hl0 as <-. exists p. by repeat split.
  - rewrite list_lookup_insert_ne in Hl0 by done.
    exists p0'. by repeat split.
Qed.
End StepEffects.

(** ** The catalog as a registry of products *)

Section Registry.
Context {P : Type} `{Numeric P}.
Implicit Types (s : ShoppingCart P) (p : Product P) (item : CartItem).

Lemma forallb_const_true (ops : list (op P)) : forallb (fun _ => true) ops = true.
Proof. induction ops as [|o ops IH]; simpl; [done|exact IH]. Qed.

Lemma registry_init : registry (init (P:=P)).
Proof.
  split; [|split; [|split; [|split]]].
  - intros k1 k2 l Hk1. cbn [init catalog] in Hk1. by rewrite lookup_empty in Hk1.
  - intros k l p Hk. cbn [init catalog] in Hk. by rewrite lookup_empty in Hk.
  - done.
  - simpl. apply map_size_empty.
  - intros k. simpl. rewrite lookup_empty. split.
    + by intros [x Hx].
    + intros (n & Hn & _). lia.
Qed.

Lemma registry_restock s l p q c :
  heap s !! l = Some p -> registry s ->
  registry (mkShoppingCart (<[l := with_quantity p q]> (heap s))
              (catalog s) c (next_id s)).
Proof.
  intros Hl (Hinj & Hown & Hnext & Hsize & Hkeys).
  split; [|split; [|split; [|split]]]; cbn [heap catalog cart next_id].
  - exact Hinj.
  - intros k l0 p0' Hk Hl0.
    destruct (restock_lookup _ _ _ _ _ _ Hl Hl0) as (p0 & Hp0 & Hid & _).
    rewrite Hid. by eapply Hown.
  - by rewrite length_insert.
  - by rewrite length_insert.
  - exact Hkeys.
Qed.

Lemma registry_effect o s s' :
  invariant s -> registry s -> effect o s s' -> registry s'.
Proof.
  intros Hinv Hreg Heff.
  destruct Heff as [o s|nm pr qty s|o s pid l p item' delta Hkey Hc Hl Hprod Hqty Hguard
                   |s pid l p item Hg Hc Hl|s].
  - done.
  - pose proof Hinv as ((Hcat & _) & _ & Hids & _).
    pose proof (next_id_fresh _ Hids) as Hfresh.
    destruct Hreg as (Hinj & Hown & Hnext & Hsize & Hkeys).
    set (pid := "PID" +:+ format_03d (next_id s)) in *.
    split; [|split; [|split; [|split]]];
      unfold catalog_inj, own_ids; cbn [heap catalog cart next_id].
    + intros k1 k2 l Hk1 Hk2.
      rewrite lookup_insert in Hk1. rewrite lookup_insert in Hk2.
      destruct (decide (pid = k1)) as [<-|Hne1]; destruct (decide (pid = k2)) as [<-|Hne2].
      * done.
      * injection Hk1 as <-. specialize (Hcat _ _ Hk2). simpl in Hcat. lia.
      * injection Hk2 as <-. specialize (Hcat _ _ Hk1). simpl in Hcat. lia.
      * by eapply Hinj.
    + intros k l p Hk Hl. rewrite lookup_insert in Hk.
      destruct (decide (pid = k)) as [<-|Hne].
      * injection Hk as <-. rewrite list_lookup_middle in Hl by done.
        by injection Hl as <-.
      * pose proof (Hcat _ _ Hk) as Hlt. simpl in Hlt.
        rewrite lookup_app_l in Hl by done. by eapply Hown.
    + rewrite length_app. simpl. lia.
    + rewrite length_app. simpl. rewrite map_size_insert_None by done. lia.
    + intros k. rewrite lookup_insert. destruct (decide (pid = k)) as [<-|Hne].
      * split; [|by eexists]. intros _. exists (next_id s). split; [lia|done].
      * rewrite Hkeys. split.
        -- intros (n & Hn & Hk). exists n. split; [lia|done].
        -- intros (n & Hn & Hk). exists n. split; [|done].
           assert (n <> next_id s) by (intros ->; by apply Hne). lia.
  - by apply registry_restock.
  - by apply registry_restock.
  - done.
Qed.

Lemma reachable_registry s : reachable s -> registry s.
Proof.
  intros [ops Hrun].
  destruct (run_induct registry (fun _ => true)
              (fun o s1 s2 Hinv Hreg _ Heff => registry_effect o s1 s2 Hinv Hreg Heff)
              ops init invariant_init registry_init (forallb_const_true ops))
    as (s' & Hrun' & _ & Hreg).
  congruence.
Qed.

Lemma same_products_refl s : same_products s s.
Proof. split; [done|]. intros l p Hl. by exists p. Qed.

Lemma same_products_trans s1 s2 s3 :
  same_products s1 s2 -> same_products s2 s3 -> same_products s1 s3.
Proof.
  intros [Hsub12 H12] [Hsub23 H23]. split; [by etrans|].
  intros l p Hl.
  destruct (H12 l p Hl) as (p2 & Hl2 & Hid2 & Hnm2 & Hpr2).
  destruct (H23 l p2 Hl2) as (p3 & Hl3 & Hid3 & Hnm3 & Hpr3).
  exists p3. repeat split; congruence.
Qed.

Lemma same_products_restock s l p q c :
  heap s !! l = Some p ->
  same_products s (mkShoppingCart (<[l := with_quantity p q]> (heap s))
                     (catalog s) c (next_id s)).
Proof.
  intros Hl. split; [done|]. intros l0 p0 Hl0. cbn [heap].
  destruct (decide (l0 = l)) as [->|Hne].
  - exists (with_quantity p q). split.
    + apply list_lookup_insert_eq. by eapply lookup_lt_Some.
    + assert (p0 = p) by congruence. by subst p0.
  - exists p0. by rewrite list_lookup_insert_ne.
Qed.

Lemma same_products_effect o s s' :
  invariant s -> effect o s s' -> same_products s s'.
Proof.
  intros Hinv Heff.
  destruct Heff as [o s|nm pr qty s|o s pid l p item' delta Hkey Hc Hl Hprod Hqty Hguard
                   |s pid l p item Hg Hc Hl|s].
  - apply same_products_refl.
  - pose proof Hinv as (_ & _ & Hids & _).
    split; cbn [heap catalog].
    + apply insert_subseteq. by apply next_id_fresh.
    + intros l p Hl. exists p. split; [by apply lookup_app_l_Some|done].
  - by apply same_products_restock.
  - by apply same_products_restock.
  - split; [done|]. intros l p Hl. by exists p.
Qed.

Lemma run_same_products ops s :
  invariant s ->
  exists s', run ops s = Ret tt s' /\ invariant s' /\ same_products s s'.
Proof.
  intros Hinv.
  apply (run_induct (same_products s) (fun _ => true)).
  - intros o s1 s2 Hinv1 Hsame _ Heff.
    eapply same_products_trans; [exact Hsame|]. by eapply same_products_effect.
  - done.
  - apply same_products_refl.
  - apply forallb_const_true.
Qed.
End Registry.

(** ** Stock and the line of the product itself *)

Lemma reserved_single (cat : gmap string loc) pid l (c : dict CartItem) :
  (forall k1 k2 l0, cat !! k1 = Some l0 -> cat !! k2 = Some l0 -> k1 = k2) ->
  cat !! pid = Some l ->
  Forall (fun kv => cat !! kv.1 = Some (product kv.2)) c ->
  NoDup (dict_keys c) ->
  reserved l c = match dict_get pid c with
                 | Some item => quantity item
                 | None => 0
                 end.
Proof.
  intros Hinj Hpid Hcoh. induction Hcoh as [|[k item] c Hk Hcoh IH]; simpl; [done|].
  intros Hnd. apply NoDup_cons in Hnd as [Hnotin Hnd]. simpl in Hk.
  specialize (IH Hnd). unfold reserves.
  destruct (decide (k = pid)) as [->|Hne].
  - rewrite decide_True by congruence.
    destruct (dict_get pid c) as [other|] eqn:Hg; [|lia].
    exfalso. apply Hnotin. apply dict_get_Some_elem in Hg.
    apply list_elem_of_fmap. by exists (pid, other).
  - rewrite decide_False; [lia|].
    intros Heq. apply Hne. apply (Hinj k pid l); congruence.
Qed.

Section Stock.
Context {P : Type} `{Numeric P}.
Implicit Types (s : ShoppingCart P) (p : Product P) (item : CartItem).

Lemma reserved_own_line s pid l :
  invariant s -> catalog_inj s -> catalog s !! pid = Some l ->
  reserved l (cart s) = line_quantity pid s.
Proof.
  intros (_ & Hcoh & _ & Hnd) Hinj Hc.
  by apply (reserved_single (catalog s)).
Qed.

Lemma stock_nonneg_effect o s s' :
  invariant s -> registry s -> stock_nonneg s -> creates_nonneg o = true ->
  effect o s s' -> stock_nonneg s'.
Proof.
  intros Hinv (Hinj & _) Hnn Hcreate Heff.
  destruct Heff as [o s|nm pr qty s|o s pid l p item' delta Hkey Hc Hl Hprod Hqty Hguard
                   |s pid l p item Hg Hc Hl|s].
  - done.
  - intros l0 p0 Hl0. cbn [heap cart] in *.
    apply lookup_app_Some in Hl0 as [Hl0|[Hge Hl0]]; [by apply Hnn|].
    destruct (l0 - length (heap s))%nat as [|n] eqn:Hdiff; [|done].
    injection Hl0 as <-. cbn [quantity_available].
    rewrite reserved_beyond.
    + simpl in Hcreate. apply Z.leb_le in Hcreate. lia.
    + destruct Hinv as ((_ & Hcart) & _).
      eapply Forall_impl; [exact Hcart|]. intros kv Hkv. simpl in *. lia.
  - destruct (transfer_invariant s pid l p item' delta Hinv Hc Hl Hprod Hqty)
      as [_ Hcons].
    intros l0 p0' Hl0. cbn [heap cart] in *.
    destruct (restock_lookup _ _ _ _ _ _ Hl Hl0) as (p0 & Hp0 & _ & _ & _ & Hother & Hsame).
    destruct (Hnn _ _ Hp0) as [Hq Hsum].
    destruct (Hcons _ _ Hp0) as (p'' & Hp'' & Heq). cbn [heap cart] in *.
    assert (p'' = p0') by congruence. subst p''.
    split; [|lia].
    destruct (decide (l0 = l)) as [Heql|Hneq].
    + destruct (Hsame Heql) as [-> ->]. destruct (decide (0 < delta)); [|lia].
      specialize (Hguard ltac:(done)). lia.
    + by rewrite (Hother Hneq).
  - destruct (release_invariant s pid l p item Hinv Hg Hc Hl) as [_ Hcons].
    pose proof (reserved_own_line s pid l Hinv Hinj Hc) as Hown.
    unfold line_quantity in Hown. rewrite Hg in Hown.
    intros l0 p0' Hl0. cbn [heap cart] in *.
    destruct (restock_lookup _ _ _ _ _ _ Hl Hl0) as (p0 & Hp0 & _ & _ & _ & Hother & Hsame).
    destruct (Hnn _ _ Hp0) as [Hq Hsum].
    destruct (Hcons _ _ Hp0) as (p'' & Hp'' & Heq). cbn [heap cart] in *.
    assert (p'' = p0') by congruence. subst p''.
    split; [|lia].
    destruct (decide (l0 = l)) as [Heql|Hneq].
    + destruct (Hsame Heql) as [-> ->]. subst l0. lia.
    + by rewrite (Hother Hneq).
  - intros l0 p0 Hl0. cbn [heap cart set_cart reserved] in *.
    destruct (Hnn _ _ Hl0) as [Hq _]. lia.
Qed.

Lemma run_stock_nonneg ops s :
  forallb creates_nonneg ops = true -> run ops init = Ret tt s ->
  invariant s /\ registry s /\ stock_nonneg s.
Proof.
  intros Hops Hrun.
  destruct (run_induct (fun s => registry s /\ stock_nonneg s) creates_nonneg) with
    (ops := ops) (s := init (P:=P)) as (s' & Hrun' & Hinv & Hreg & Hnn).
  - intros o s1 s2 Hinv1 [Hreg1 Hnn1] Ho Heff. split.
    + by eapply registry_effect.
    + by eapply stock_nonneg_effect.
  - apply invariant_init.
  - split; [apply registry_init|]. intros l p Hl. done.
  - done.
  - assert (s' = s) as -> by congruence. done.
Qed.
End Stock.

(** ** No stock goes negative through the cart manager *)

(** X1: from a fresh cart manager, after any sequence of calls in which every
    product is created with a stock that is not negative, no product has a
    negative stock: whatever quantities [add_to_cart], [update_cart_quantity]
    ([new_qty] negative or zero included), [remove_from_cart] and
    [clear_cart] are given. *)
Theorem stock_never_negative
    {P : Type} `{Numeric P} (ops : list (op P)) (s : ShoppingCart P) :
  forallb creates_nonneg ops = true ->
  run ops init = Ret tt s ->
  (forall l p, heap s !! l = Some p -> 0 <= quantity_available p) /\
  (forall pid stock, stock_available pid s = Some stock -> 0 <= stock).
Proof.
  intros Hops Hrun.
  destruct (run_stock_nonneg ops s Hops Hrun) as (_ & _ & Hnn).
  assert (Hheap : forall l p, heap s !! l = Some p -> 0 <= quantity_available p).
  { intros l p Hl. by destruct (Hnn l p Hl). }
  split; [done|]. intros pid stock. unfold stock_available.
  destruct (catalog s !! pid) as [l|]; [|done].
  destruct (heap s !! l) as [p|] eqn:Hl; [|done].
  intros [= <-]. by eapply Hheap.
Qed.

Lemma stock_never_negative_witness :
  exists s,
    run (two_products ++
         [AddToCart "PID001" 1; UpdateCartQuantity "PID001" (-10);
          AddToCart "PID001" 15; ClearCart; RemoveFromCart "PID001"]) init
    = Ret tt s /\
    forall pid stock, stock_available pid s = Some stock -> 0 <= stock.
Proof.
  eexists. split; [reflexivity|].
  refine (proj2 (stock_never_negative
            (two_products ++
             [AddToCart "PID001" 1; UpdateCartQuantity "PID001" (-10);
              AddToCart "PID001" 15; ClearCart; RemoveFromCart "PID001"])
            _ _ _)); reflexivity.
Defined.

(** ** The catalog *)

(** X2: in every state the cart manager can be in, the keys of the catalog
    are exactly the identifiers ["PID" + format(n)] of the counters [n] from 1
    up to, and without, the next one; there are as many catalog entries as
    product objects, and the next counter is that number plus one. *)
Theorem catalog_keys_are_generated_ids
    {P : Type} `{Numeric P} (s : ShoppingCart P) :
  reachable s ->
  (forall k, is_Some (catalog s !! k) <->
             exists n, (1 <= n < next_id s)%N /\ k = "PID" +:+ format_03d n) /\
  size (catalog s) = length (heap s) /\
  next_id s = (N.of_nat (size (catalog s)) + 1)%N.
Proof.
  intros Hreach.
  destruct (reachable_registry s Hreach) as (_ & _ & Hnext & Hsize & Hkeys).
  split; [done|]. split; [done|]. by rewrite Hsize.
Qed.

Lemma catalog_keys_are_generated_ids_witness :
  is_Some (catalog shop_3_pens !! "PID002") /\
  size (catalog shop_3_pens) = 2%nat.
Proof.
  destruct (catalog_keys_are_generated_ids shop_3_pens shop_3_pens_reachable)
    as (Hkeys & Hsize & _).
  split; [|exact Hsize].
  apply Hkeys. exists 2%N. split; [simpl; lia|reflexivity].
Defined.

(** X3: in every state the cart manager can be in, a key of the catalog
    refers to a live product whose [product_id] is that key, and no other key
    refers to the same product object. *)
Theorem catalog_entry_is_own_product
    {P : Type} `{Numeric P} (s : ShoppingCart P) (k : string) (l : loc) :
  reachable s ->
  catalog s !! k = Some l ->
  exists p, heap s !! l = Some p /\ product_id p = k /\
    forall k', catalog s !! k' = Some l -> k' = k.
Proof.
  intros Hreach Hk.
  destruct (reachable_registry s Hreach) as (Hinj & Hown & _).
  destruct (invariant_catalog_ref s k l (reachable_invariant s Hreach) Hk) as [p Hl].
  exists p. split; [done|]. split; [by eapply Hown|].
  intros k' Hk'. by eapply Hinj.
Qed.

Lemma catalog_entry_is_own_product_witness :
  exists p, heap shop_3_pens !! 1%nat = Some p /\ product_id p = "PID002" /\
    forall k', catalog shop_3_pens !! k' = Some 1%nat -> k' = "PID002".
Proof.
  apply (catalog_entry_is_own_product shop_3_pens "PID002" 1%nat).
  - exact shop_3_pens_reachable.
  - reflexivity.
Defined.

(** X4: two calls of [add_product] on the same cart manager never return the
    same identifier, whatever is called before and in between. *)
Theorem generated_ids_distinct
    {P : Type} `{Numeric P} (ops1 ops2 : list (op P))
    (nm1 nm2 : string) (pr1 pr2 : P) (qty1 qty2 : Z)
    (s1 s2 s3 s4 : ShoppingCart P) (pid1 pid2 : string) :
  run ops1 init = Ret tt s1 ->
  add_product nm1 pr1 qty1 s1 = Ret pid1 s2 ->
  run ops2 s2 = Ret tt s3 ->
  add_product nm2 pr2 qty2 s3 = Ret pid2 s4 ->
  pid1 <> pid2.
Proof.
  intros Hrun1 Hadd1 Hrun2 Hadd2.
  assert (Hinv1 : invariant s1) by (apply reachable_invariant; by exists ops1).
  rewrite add_product_eq in Hadd1. cbv zeta in Hadd1. injection Hadd1 as Hpid1 Hs2.
  pose proof (add_product_sound nm1 pr1 qty1 s1 Hinv1) as (Hinv2 & _).
  cbv zeta in Hinv2. rewrite Hs2 in Hinv2.
  destruct (run_sound ops2 s2 Hinv2) as (s3' & Hrun2' & Hinv3 & Hsub & _).
  assert (s3' = s3) as -> by congruence.
  assert (Hc3 : catalog s3 !! pid1 = Some (length (heap s1))).
  { eapply lookup_weaken; [|exact Hsub]. subst s2 pid1. cbn [catalog].
    apply lookup_insert_eq. }
  rewrite add_product_eq in Hadd2. cbv zeta in Hadd2. injection Hadd2 as Hpid2 _.
  destruct Hinv3 as (_ & _ & Hids & _).
  pose proof (next_id_fresh _ Hids) as Hfresh. rewrite Hpid2 in Hfresh.
  intros Heq. congruence.
Qed.

Lemma generated_ids_distinct_witness :
  "PID001" <> "PID003".
Proof.
  apply (generated_ids_distinct [] [AddProduct "Book" 50 2; ClearCart]
           "Pen" "Ink" 10 7 5 4
           init (mkShoppingCart [pen] (<["PID001" := 0%nat]> ∅) [] 2%N)
           shop
           (mkShoppingCart [pen; book; mkProduct "PID003" "Ink" 7 4]
              (<["PID003" := 2%nat]> (catalog shop)) [] 4%N));
    reflexivity.
Defined.

(** X5: a product, once added, stays: after any sequence of calls that
    follows its [add_product], the catalog still holds, under the identifier
    that was returned, a product with that identifier, the name and the price
    it was created with.  No call removes, renames or reprices a product. *)
Theorem product_identity_kept
    {P : Type} `{Numeric P} (ops1 ops2 : list (op P))
    (nm : string) (pr : P) (qty : Z) (s1 s2 : ShoppingCart P) (pid : string) :
  run ops1 init = Ret tt s1 ->
  add_product nm pr qty s1 = Ret pid s2 ->
  exists s3 l p,
    run ops2 s2 = Ret tt s3 /\
    catalog s3 !! pid = Some l /\ heap s3 !! l = Some p /\
    product_id p = pid /\ name p = nm /\ price p = pr.
Proof.
  intros Hrun1 Hadd.
  assert (Hinv1 : invariant s1) by (apply reachable_invariant; by exists ops1).
  rewrite add_product_eq in Hadd. cbv zeta in Hadd. injection Hadd as Hpid Hs2.
  pose proof (add_product_sound nm pr qty s1 Hinv1) as (Hinv2 & _).
  cbv zeta in Hinv2. rewrite Hs2 in Hinv2.
  destruct (run_same_products ops2 s2 Hinv2) as (s3 & Hrun2 & _ & Hsub & Hsame).
  destruct (Hsame (length (heap s1)) (mkProduct pid nm pr qty))
    as (p & Hl3 & Hid & Hnm & Hpr).
  { subst s2 pid. cbn [heap]. by apply list_lookup_middle. }
  exists s3, (length (heap s1)), p. split; [done|]. split.
  - eapply lookup_weaken; [|exact Hsub]. subst s2 pid. cbn [catalog].
    apply lookup_insert_eq.
  - by repeat split.
Qed.

Lemma product_identity_kept_witness :
  exists s3 l p,
    run [AddToCart "PID002" 2; UpdateCartQuantity "PID002" 1; ClearCart;
         AddProduct "Ink" 7 4; RemoveFromCart "PID002"] shop
    = Ret tt s3 /\
    catalog s3 !! "PID002" = Some l /\ heap s3 !! l = Some p /\
    product_id p = "PID002" /\ name p = "Book" /\ price p = 50.
Proof.
  apply (product_identity_kept [AddProduct "Pen" 10 5] _ "Book" 50 2
           (mkShoppingCart [pen] (<["PID001" := 0%nat]> ∅) [] 2%N));
    reflexivity.
Defined.

(** X6: in every state the cart manager can be in, the cart has at most one
    line per key, and what the cart lines reserve of a product of the catalog
    is the quantity of the line filed under its own identifier (nothing when
    there is no such line): no line of another key refers to it. *)
Theorem reserved_is_own_line
    {P : Type} `{Numeric P} (s : ShoppingCart P) (pid : string) (l : loc) :
  reachable s ->
  catalog s !! pid = Some l ->
  NoDup (dict_keys (cart s)) /\
  reserved_for pid s = Some (line_quantity pid s) /\
  forall k item, dict_get k (cart s) = Some item -> product item = l -> k = pid.
Proof.
  intros Hreach Hc.
  pose proof (reachable_invariant s Hreach) as Hinv.
  destruct (reachable_registry s Hreach) as (Hinj & _).
  split; [apply Hinv|]. split.
  - unfold reserved_for. rewrite Hc. f_equal. by apply reserved_own_line.
  - intros k item Hg Hprod.
    destruct (invariant_line_ref _ _ _ Hinv Hg) as [Hk _].
    apply (Hinj k pid l); congruence.
Qed.

Lemma reserved_is_own_line_witness :
  reserved_for "PID001" shop_3_pens = Some 3 /\
  reserved_for "PID002" shop_3_pens = Some 0.
Proof.
  split.
  - apply (proj1 (proj2 (reserved_is_own_line shop_3_pens "PID001" 0%nat
                            shop_3_pens_reachable eq_refl))).
  - apply (proj1 (proj2 (reserved_is_own_line shop_3_pens "PID002" 1%nat
                            shop_3_pens_reachable eq_refl))).
Defined.

(** X7: in every state the cart manager can be in, a call of [add_to_cart],
    [update_cart_quantity] or [remove_from_cart] on one identifier leaves the
    stock of every other product and the cart line of every other identifier
    as they were, and never changes the catalog or the counter. *)
Theorem call_leaves_other_products
    {P : Type} `{Numeric P} (s s' : ShoppingCart P) (o : op P) (pid : string) :
  reachable s ->
  op_key o = Some pid ->
  step o s = Ret tt s' ->
  catalog s' = catalog s /\ next_id s' = next_id s /\
  forall k, k <> pid ->
    stock_available k s' = stock_available k s /\
    dict_get k (cart s') = dict_get k (cart s).
Proof.
  intros Hreach Hkey Hstep.
  pose proof (reachable_invariant s Hreach) as Hinv.
  destruct (reachable_registry s Hreach) as (Hinj & _).
  destruct (step_effect o s Hinv) as (s'' & Hstep' & Heff & _).
  assert (s'' = s') as -> by congruence.
  destruct Heff as [o s|nm pr qty s|o s pid0 l p item' delta Hkey0 Hc Hl Hprod Hqty Hguard
                   |s pid0 l p item Hg Hc Hl|s]; try done.
  - assert (pid0 = pid) as -> by congruence.
    split; [done|]. split; [done|]. intros k Hne. split.
    + unfold stock_available. cbn [heap catalog].
      destruct (catalog s !! k) as [lk|] eqn:Hk; [|done].
      rewrite list_lookup_insert_ne; [done|].
      intros <-. apply Hne. by apply (Hinj k pid l).
    + cbn [cart]. by apply dict_get_set_ne.
  - simpl in Hkey. assert (pid0 = pid) as -> by congruence.
    split; [done|]. split; [done|]. intros k Hne. split.
    + unfold stock_available. cbn [heap catalog].
      destruct (catalog s !! k) as [lk|] eqn:Hk; [|done].
      rewrite list_lookup_insert_ne; [done|].
      intros <-. apply Hne. by apply (Hinj k pid l).
    + cbn [cart]. by apply dict_get_del_ne.
Qed.

Lemma call_leaves_other_products_witness :
  stock_available "PID002"
    (mkShoppingCart [with_quantity pen 0; book] (catalog shop)
       [("PID001", mkCartItem 0%nat 5)] 3%N)
  = stock_available "PID002" shop_3_pens /\
  dict_get "PID002" [("PID001", mkCartItem 0%nat 5)]
  = dict_get "PID002" (cart shop_3_pens).
Proof.
  destruct (call_leaves_other_products shop_3_pens
              (mkShoppingCart [with_quantity pen 0; book] (catalog shop)
                 [("PID001", mkCartItem 0%nat 5)] 3%N)
              (UpdateCartQuantity "PID001" 5) "PID001"
              shop_3_pens_reachable eq_refl eq_refl) as (_ & _ & Hothers).
  apply (Hothers "PID002"). done.
Defined.

(** ** Calls that undo or merge *)

Section RoundTrips.
Context {P : Type} `{Numeric P}.
Implicit Types (s : ShoppingCart P) (p : Product P) (item : CartItem).

Lemma with_quantity_twice p q1 q2 :
  with_quantity (with_quantity p q1) q2 = with_quantity p q2.
Proof. reflexivity. Qed.

Lemma with_item_quantity_same item : with_item_quantity item (quantity item) = item.
Proof. by destruct item. Qed.

Lemma restock_restore (h : list (Product P)) l p x y :
  h !! l = Some p -> y = quantity_available p ->
  <[l := with_quantity (with_quantity p x) y]> (<[l := with_quantity p x]> h) = h.
Proof.
  intros Hl ->.
  rewrite list_insert_insert_eq, with_quantity_twice, with_quantity_same.
  by apply list_insert_id.
Qed.

Lemma add_to_cart_true_inv pid qty s s' :
  add_to_cart pid qty s = Ret true s' ->
  exists l p,
    catalog s !! pid = Some l /\ heap s !! l = Some p /\
    0 < qty <= quantity_available p /\
    s' = mkShoppingCart
           (<[l := with_quantity p (quantity_available p - qty)]> (heap s))
           (catalog s)
           (dict_set pid
              match dict_get pid (cart s) with
              | Some item => with_item_quantity item (quantity item + qty)
              | None => mkCartItem l qty
              end (cart s))
           (next_id s).
Proof.
  intros Hadd.
  destruct (catalog s !! pid) as [l|] eqn:Hc.
  - destruct (heap s !! l) as [p|] eqn:Hl.
    + destruct (decide (0 < qty <= quantity_available p)) as [Hok|Hno].
      * rewrite (add_to_cart_accepted _ _ _ _ _ Hc Hl Hok) in Hadd.
        injection Hadd as <-. by exists l, p.
      * by rewrite (add_to_cart_refused _ _ _ _ _ Hc Hl Hno) in Hadd.
    + revert Hadd. unfold_calls. by rewrite Hc, Hl.
  - by rewrite (add_to_cart_unknown _ _ _ Hc) in Hadd.
Qed.

Lemma update_true_inv pid new_qty s s' item p :
  dict_get pid (cart s) = Some item -> heap s !! product item = Some p ->
  update_cart_quantity pid new_qty s = Ret true s' ->
  (new_qty = quantity item /\ s' = s) \/
  (new_qty <> quantity item /\
   (0 < new_qty - quantity item ->
    new_qty - quantity item <= quantity_available p) /\
   s' = mkShoppingCart
          (<[product item :=
               with_quantity p (quantity_available p - (new_qty - quantity item))]>
             (heap s))
          (catalog s)
          (dict_set pid (with_item_quantity item new_qty) (cart s))
          (next_id s)).
Proof.
  intros Hg Hl Hupd.
  destruct (Z.lt_trichotomy (new_qty - quantity item) 0) as [Hneg|[Hzero|Hpos]].
  - rewrite (update_shrink _ _ _ _ _ Hg Hl Hneg) in Hupd. injection Hupd as <-.
    right. split; [lia|]. split; [lia|]. reflexivity.
  - rewrite (update_same _ _ _ _ _ Hg Hl Hzero) in Hupd. injection Hupd as <-.
    left. split; [lia|done].
  - destruct (decide (new_qty - quantity item <= quantity_available p)) as [Hle|Hgt].
    + rewrite (update_grow _ _ _ _ _ Hg Hl (conj Hpos Hle)) in Hupd.
      injection Hupd as <-. right. split; [lia|]. split; [lia|done].
    + rewrite (update_grow_refused _ _ _ _ _ Hg Hl) in Hupd by lia. done.
Qed.
End RoundTrips.

(** X8: when the cart has no line for [pid] and [add_to_cart pid qty]
    returns [True], a [remove_from_cart pid] right after returns [True] and
    gives back exactly the state before the two calls: stock, catalog, cart
    (with its order) and counter. *)
Theorem add_then_remove_restores
    {P : Type} `{Numeric P} (s s1 : ShoppingCart P) (pid : string) (qty : Z) :
  dict_get pid (cart s) = None ->
  add_to_cart pid qty s = Ret true s1 ->
  remove_from_cart pid s1 = Ret true s.
Proof.
  intros Hg Hadd.
  destruct (add_to_cart_true_inv _ _ _ _ Hadd) as (l & p & Hc & Hl & Hok & ->).
  rewrite Hg.
  rewrite (remove_present pid _ (mkCartItem l qty) l
             (with_quantity p (quantity_available p - qty))).
  - cbn [heap catalog cart next_id].
    rewrite dict_del_set_absent by done.
    rewrite restock_restore; [by destruct s|done|simpl; lia].
  - cbn [cart]. apply dict_get_set_eq.
  - done.
  - cbn [heap]. apply list_lookup_insert_eq. by eapply lookup_lt_Some.
Qed.

Lemma add_then_remove_restores_witness :
  remove_from_cart "PID001" shop_3_pens = Ret true shop.
Proof.
  apply (add_then_remove_restores shop shop_3_pens "PID001" 3); reflexivity.
Defined.

(** X9: when [update_cart_quantity pid n] returns [True] on a line whose
    product has a stock that is not negative, updating the line back to the
    quantity it had returns [True] and gives back exactly the state before
    the two calls. *)
Theorem update_there_and_back
    {P : Type} `{Numeric P} (s s1 : ShoppingCart P) (pid : string) (n : Z)
    (item : CartItem) (p : Product P) :
  dict_get pid (cart s) = Some item ->
  heap s !! product item = Some p ->
  0 <= quantity_available p ->
  update_cart_quantity pid n s = Ret true s1 ->
  update_cart_quantity pid (quantity item) s1 = Ret true s.
Proof.
  intros Hg Hl Hq Hupd.
  destruct (update_true_inv _ _ _ _ _ _ Hg Hl Hupd)
    as [[-> ->]|(Hne & Hguard & ->)].
  - apply (update_same _ _ _ item p); [done|done|lia].
  - set (diff := n - quantity item) in *.
    set (p1 := with_quantity p (quantity_available p - diff)).
    assert (Hg1 : dict_get pid (dict_set pid (with_item_quantity item n) (cart s))
                  = Some (with_item_quantity item n)) by apply dict_get_set_eq.
    assert (Hl1 : <[product item := p1]> (heap s) !! product item = Some p1).
    { apply list_lookup_insert_eq. by eapply lookup_lt_Some. }
    assert (Hback : forall h' : list (Product P),
              h' = heap s ->
              Ret (P:=P) true
                (mkShoppingCart h' (catalog s)
                   (dict_set pid (with_item_quantity (with_item_quantity item n)
                                    (quantity item))
                      (dict_set pid (with_item_quantity item n) (cart s)))
                   (next_id s))
              = Ret true s).
    { intros h' ->. rewrite dict_set_set.
      change (with_item_quantity (with_item_quantity item n) (quantity item))
        with (with_item_quantity item (quantity item)).
      rewrite with_item_quantity_same, dict_set_same by done. by destruct s. }
    destruct (decide (0 < diff)) as [Hpos|Hnpos].
    + rewrite (update_shrink pid (quantity item) _ (with_item_quantity item n) p1);
        [|done|done|simpl; lia].
      cbn [heap catalog cart next_id product with_item_quantity quantity].
      apply Hback. subst p1.
      apply restock_restore; [done|]. subst diff. simpl. lia.
    + rewrite (update_grow pid (quantity item) _ (with_item_quantity item n) p1);
        [|done|done|simpl; lia].
      cbn [heap catalog cart next_id product with_item_quantity quantity].
      apply Hback. subst p1.
      apply restock_restore; [done|]. subst diff. simpl. lia.
Qed.

Lemma update_there_and_back_witness :
  update_cart_quantity "PID001" 3
    (mkShoppingCart [with_quantity pen 7; book] (catalog shop)
       [("PID001", mkCartItem 0%nat (-2))] 3%N)
  = Ret true shop_3_pens.
Proof.
  apply (update_there_and_back shop_3_pens _ "PID001" (-2)
           (mkCartItem 0%nat 3) (with_quantity pen 2)).
  - reflexivity.
  - reflexivity.
  - simpl. lia.
  - reflexivity.
Defined.

(** X10: two [add_to_cart] calls on the same identifier that both return
    [True] leave exactly the state that one call with the sum of the two
    quantities leaves, and that one call returns [True] as well. *)
Theorem add_twice_is_add_sum
    {P : Type} `{Numeric P} (s s1 s2 : ShoppingCart P) (pid : string) (a b : Z) :
  add_to_cart pid a s = Ret true s1 ->
  add_to_cart pid b s1 = Ret true s2 ->
  add_to_cart pid (a + b) s = Ret true s2.
Proof.
  intros Hadd1 Hadd2.
  destruct (add_to_cart_true_inv _ _ _ _ Hadd1) as (l & p & Hc & Hl & Ha & ->).
  destruct (add_to_cart_true_inv _ _ _ _ Hadd2) as (l' & p' & Hc' & Hl' & Hb & ->).
  cbn [heap catalog cart next_id] in *.
  assert (l' = l) as -> by congruence.
  rewrite list_lookup_insert_eq in Hl' by (by eapply lookup_lt_Some).
  injection Hl' as <-. cbn [quantity_available with_quantity] in *.
  rewrite (add_to_cart_accepted _ _ _ _ _ Hc Hl) by lia.
  rewrite list_insert_insert_eq, dict_set_set, dict_get_set_eq.
  rewrite with_quantity_twice. do 2 f_equal.
  - do 2 f_equal. lia.
  - f_equal. destruct (dict_get pid (cart s)) as [item|];
      unfold with_item_quantity; simpl; f_equal; lia.
Qed.

Lemma add_twice_is_add_sum_witness :
  add_to_cart "PID001" (1 + 2) shop = Ret true shop_3_pens.
Proof.
  apply (add_twice_is_add_sum shop
           (mkShoppingCart [with_quantity pen 4; book] (catalog shop)
              [("PID001", mkCartItem 0%nat 1)] 3%N)
           shop_3_pens "PID001" 1 2); reflexivity.
Defined.

(** X11: on a [Product], an [increase_quantity] by the amount of a
    [decrease_quantity] that returned [True] gives the product back as it
    was; and on a product whose stock is not negative, a [decrease_quantity]
    by the positive amount of an [increase_quantity] returns [True] and gives
    the product back as it was. *)
Theorem decrease_increase_restore
    {P : Type} `{Numeric P} (p : Product P) (amount : Z) :
  (forall p', decrease_quantity amount p = (true, p') ->
     increase_quantity amount p' = (tt, p)) /\
  (0 < amount -> 0 <= quantity_available p ->
     decrease_quantity amount (increase_quantity amount p).2 = (true, p)).
Proof.
  split.
  - intros p'. unfold decrease_quantity.
    destruct ((0 <? amount) && (amount <=? quantity_available p)); [|done].
    intros [= <-]. unfold increase_quantity. f_equal.
    rewrite with_quantity_twice. cbn [quantity_available with_quantity].
    replace (quantity_available p - amount + amount)
      with (quantity_available p) by lia.
    fold (with_quantity p (quantity_available p)). apply with_quantity_same.
  - intros Hpos Hq. unfold increase_quantity. cbn [snd].
    rewrite decrease_quantity_accepts by (simpl; lia).
    f_equal. rewrite with_quantity_twice. cbn [quantity_available with_quantity].
    replace (quantity_available p + amount - amount)
      with (quantity_available p) by lia.
    fold (with_quantity p (quantity_available p)). apply with_quantity_same.
Qed.

Lemma decrease_increase_restore_witness :
  increase_quantity 3 (with_quantity pen 2) = (tt, pen) /\
  decrease_quantity 4 (increase_quantity 4 pen).2 = (true, pen).
Proof.
  split.
  - apply (proj1 (decrease_increase_restore pen 3)). reflexivity.
  - apply (proj2 (decrease_increase_restore pen 4)); simpl; lia.
Defined.

(** ** The total of the cart *)

Section Totals.
Context {P : Type} `{Numeric P}.
Implicit Types (s : ShoppingCart P) (p : Product P) (item : CartItem).

Lemma sum_subtotals_app items1 items2 acc s total :
  sum_subtotals items1 acc s = Ret total s ->
  sum_subtotals (items1 ++ items2) acc s = sum_subtotals items2 total s.
Proof.
  revert acc. induction items1 as [|item items1 IH]; intros acc; simpl.
  - unfold ret. by intros [= ->].
  - unfold subtotal, deref, bind, ret. cbv beta.
    destruct (heap s !! product item) as [p|]; [|done]. apply IH.
Qed.

(** The total only reads the prices of the store. *)
Lemma sum_subtotals_same_prices items acc s s' total :
  (forall l, price <$> heap s' !! l = price <$> heap s !! l) ->
  sum_subtotals items acc s = Ret total s ->
  sum_subtotals items acc s' = Ret total s'.
Proof.
  intros Hprices. revert acc. induction items as [|item items IH]; intros acc; simpl.
  - unfold ret. by intros [= ->].
  - unfold subtotal, deref, bind, ret. cbv beta.
    specialize (Hprices (product item)).
    destruct (heap s !! product item) as [p|]; [|done].
    destruct (heap s' !! product item) as [p'|]; [|done].
    injection Hprices as ->. apply IH.
Qed.

Lemma restock_same_prices (h : list (Product P)) l p q l0 :
  h !! l = Some p ->
  price <$> <[l := with_quantity p q]> h !! l0 = price <$> h !! l0.
Proof.
  intros Hl. destruct (decide (l0 = l)) as [->|Hne].
  - rewrite list_lookup_insert_eq by (by eapply lookup_lt_Some). by rewrite Hl.
  - by rewrite list_lookup_insert_ne.
Qed.
End Totals.

(** The new line is summed last: for the model of [sum] as a sum from the
    left, over any type of prices. *)
Lemma sum_after_new_line
    {P : Type} `{Numeric P} (s s1 : ShoppingCart P) (pid : string) (qty : Z)
    (total : P) :
  dict_get pid (cart s) = None ->
  add_to_cart pid qty s = Ret true s1 ->
  get_cart_total s = Ret total s ->
  exists l p,
    catalog s !! pid = Some l /\ heap s !! l = Some p /\
    get_cart_total s1 = Ret (num_add total (num_mul_int (price p) qty)) s1.
Proof.
  intros Hg Hadd Htotal.
  destruct (add_to_cart_true_inv _ _ _ _ Hadd) as (l & p & Hc & Hl & Hok & ->).
  exists l, p. split; [done|]. split; [done|].
  rewrite Hg. unfold get_cart_total, gets, bind in *. cbn [cart].
  rewrite dict_values_set_absent by done.
  rewrite (sum_subtotals_app _ _ _ _ total).
  - simpl. unfold subtotal, deref, bind, ret. cbn [heap product quantity].
    rewrite list_lookup_insert_eq by (by eapply lookup_lt_Some). done.
  - eapply sum_subtotals_same_prices; [|exact Htotal].
    intros l0. cbn [heap]. by apply restock_same_prices.
Qed.

(** X12: with integer prices, when the cart has no line for [pid] and
    [add_to_cart pid qty] returns [True], the total of the cart afterwards is
    the total before plus the price of the product times [qty]; in any state,
    reachable or not. *)
Theorem total_after_new_line
    (s s1 : ShoppingCart Z) (pid : string) (qty : Z) (total : Z) :
  dict_get pid (cart s) = None ->
  add_to_cart pid qty s = Ret true s1 ->
  get_cart_total s = Ret total s ->
  exists l p,
    catalog s !! pid = Some l /\ heap s !! l = Some p /\
    get_cart_total s1 = Ret (total + price p * qty) s1.
Proof.
  intros Hg Hadd Htotal.
  exact (sum_after_new_line s s1 pid qty total Hg Hadd Htotal).
Qed.

Lemma total_after_new_line_witness :
  exists l p,
    catalog shop_3_pens !! "PID002" = Some l /\ heap shop_3_pens !! l = Some p /\
    get_cart_total
      (mkShoppingCart
         [mkProduct "PID001" "Pen" 10 2; mkProduct "PID002" "Book" 50 0]
         (catalog shop)
         [("PID001", mkCartItem 0%nat 3); ("PID002", mkCartItem 1%nat 2)] 3%N)
    = Ret (30 + price p * 2)
        (mkShoppingCart
           [mkProduct "PID001" "Pen" 10 2; mkProduct "PID002" "Book" 50 0]
           (catalog shop)
           [("PID001", mkCartItem 0%nat 3); ("PID002", mkCartItem 1%nat 2)] 3%N).
Proof.
  apply (total_after_new_line shop_3_pens _ "PID002" 2 30); reflexivity.
Defined.

(** ** Checkout *)

(** X13: [checkout] reads the total of the cart.  When the total is zero it
    only reports that the cart is empty and leaves the state as it is, lines
    of the cart included.  Otherwise it shows the total, clears the cart and
    reports the order: then no stock has changed, no line is left to remove,
    and a second [checkout] right after reports an empty cart and changes
    nothing. *)
Theorem checkout_spec
    {P : Type} `{NumericZero P} (s : ShoppingCart P) :
  valid_refs s ->
  exists total,
    get_cart_total s = Ret total s /\
    (num_is_zero total = true -> checkout s = Ret [CartIsEmpty] s) /\
    (num_is_zero total = false ->
       checkout s = Ret [PaymentPrompt total; OrderPlaced] (set_cart [] s) /\
       checkout (set_cart [] s) = Ret [CartIsEmpty] (set_cart [] s) /\
       forall pid,
         stock_available pid (set_cart [] s) = stock_available pid s /\
         remove_from_cart pid (set_cart [] s) = Ret false (set_cart [] s)).
Proof.
  intros Hvalid.
  destruct (get_cart_total_returns s Hvalid) as [total Htotal].
  exists total. split; [done|]. split.
  - intros Hzero. unfold checkout, bind. by rewrite Htotal, Hzero.
  - intros Hzero. split; [|split].
    + unfold checkout, bind. by rewrite Htotal, Hzero.
    + unfold checkout, bind, get_cart_total, gets. cbn [cart set_cart].
      simpl. unfold ret. by rewrite num_is_zero_zero.
    + intros pid. split; [done|]. by apply remove_absent.
Qed.

Lemma checkout_spec_witness :
  checkout shop_3_pens
  = Ret [PaymentPrompt 30; OrderPlaced] (set_cart [] shop_3_pens) /\
  checkout (set_cart [] shop_3_pens) = Ret [CartIsEmpty] (set_cart [] shop_3_pens) /\
  stock_available "PID001" (set_cart [] shop_3_pens) = Some 2.
Proof.
  destruct (checkout_spec shop_3_pens shop_3_pens_valid_refs)
    as (total & Htotal & _ & Hpay).
  assert (total = 30) as -> by (by injection Htotal).
  destruct (Hpay eq_refl) as (Hfirst & Hsecond & Hafter).
  split; [exact Hfirst|]. split; [exact Hsecond|].
  by rewrite (proj1 (Hafter "PID001")).
Defined.

(** ** Integer prices: the total as a sum over the lines *)

(** With positive prices and quantities the subtotals only add up. *)
Lemma sum_subtotals_Z_eq (s : ShoppingCart Z) items acc :
  Forall (fun item => (product item < length (heap s))%nat) items ->
  exists total,
    sum_subtotals items acc s = Ret total s /\
    (Forall (fun p => 0 < price p) (heap s) ->
     Forall (fun item => 0 < quantity item) items ->
     acc <= total /\ (items <> [] -> acc < total)).
Proof.
  intros Hrefs. revert acc.
  induction Hrefs as [|item items Hlt Hrefs IH]; intros acc.
  - exists acc. split; [done|]. intros _ _. split; [lia|done].
  - apply lookup_lt_is_Some_2 in Hlt as [p Hp].
    destruct (IH (acc + price p * quantity item)) as (total & Heq & Hpos).
    exists total. split.
    + cbn [sum_subtotals]. unfold subtotal, deref, bind, ret. cbv beta.
      rewrite Hp. exact Heq.
    + intros Hprices Hlines. apply Forall_cons in Hlines as [Hq Hlines].
      destruct (Hpos Hprices Hlines) as [Hle _].
      assert (0 < price p).
      { rewrite Forall_forall in Hprices. apply Hprices.
        by eapply list_elem_of_lookup_2. }
      assert (0 < price p * quantity item) by lia.
      split; [lia|]. intros _. lia.
Qed.

Lemma prices_positive_effect (o : op Z) (s s' : ShoppingCart Z) :
  prices_positive s -> sells_at_positive_price o = true ->
  effect o s s' -> prices_positive s'.
Proof.
  intros Hprices Hsell Heff. unfold prices_positive in *.
  destruct Heff as [o s|nm pr qty s|o s pid l p item' delta Hkey Hc Hl Hprod Hqty Hguard
                   |s pid l p item Hg Hc Hl|s]; cbn [heap set_cart] in *.
  - done.
  - apply Forall_app. split; [done|]. constructor; [|constructor].
    simpl in *. by apply Z.ltb_lt.
  - apply Forall_insert; [done|]. simpl.
    rewrite Forall_forall in Hprices. apply Hprices. by eapply list_elem_of_lookup_2.
  - apply Forall_insert; [done|]. simpl.
    rewrite Forall_forall in Hprices. apply Hprices. by eapply list_elem_of_lookup_2.
  - done.
Qed.

(** X14: with integer prices, from a fresh cart manager, after any sequence
    of calls in which every product is created at a positive price and every
    [update_cart_quantity] is given a positive quantity, the total of the
    cart is zero when the cart has no line and positive when it has one: so
    [checkout] reports an empty cart exactly when the cart is empty. *)
Theorem checkout_reports_empty_iff_empty
    (ops : list (op Z)) (s : ShoppingCart Z) :
  forallb sells_at_positive_price ops = true ->
  forallb updates_to_positive ops = true ->
  run ops init = Ret tt s ->
  exists total,
    get_cart_total s = Ret total s /\
    (cart s = [] -> total = 0) /\
    (cart s <> [] -> 0 < total) /\
    (checkout s = Ret [CartIsEmpty] s <-> cart s = []).
Proof.
  intros Hsell Hupd Hrun.
  destruct (run_induct prices_positive sells_at_positive_price
              (fun o s1 s2 _ Hp Ho Heff => prices_positive_effect o s1 s2 Hp Ho Heff)
              ops init invariant_init (Forall_nil_2 _) Hsell)
    as (s1 & Hrun1 & Hinv & Hprices).
  assert (s1 = s) as -> by congruence.
  destruct (run_sound ops init invariant_init) as (s2 & Hrun2 & _ & _ & _ & Hpos).
  assert (s2 = s) as -> by congruence.
  assert (Hlines : positive_lines s) by (apply Hpos; [done|constructor]).
  destruct Hinv as ((_ & Hrefs) & _).
  destruct (sum_subtotals_Z_eq s (dict_values (cart s)) 0) as (total & Htotal & Hsum).
  { unfold dict_values. rewrite Forall_fmap.
    eapply Forall_impl; [exact Hrefs|]. by intros kv Hkv. }
  destruct Hsum as [Hle Hlt].
  { exact Hprices. }
  { unfold dict_values. rewrite Forall_fmap.
    eapply Forall_impl; [exact Hlines|]. by intros kv Hkv. }
  assert (Hget : get_cart_total s = Ret total s) by exact Htotal.
  assert (Hempty : cart s = [] -> total = 0).
  { intros Hnil. unfold get_cart_total, gets, bind in Hget. rewrite Hnil in Hget.
    simpl in Hget. unfold ret in Hget. by injection Hget as <-. }
  assert (Hfull : cart s <> [] -> 0 < total).
  { intros Hne. apply Hlt. unfold dict_values. by destruct (cart s). }
  exists total. split; [done|]. split; [done|]. split; [done|].
  unfold checkout, bind. rewrite Hget. cbn [num_is_zero Z_NumericZero].
  destruct (total =? 0) eqn:Hz.
  - apply Z.eqb_eq in Hz. split; [|done]. intros _.
    destruct (cart s) as [|kv rest] eqn:Hc; [done|].
    assert (0 < total) by (by apply Hfull). lia.
  - apply Z.eqb_neq in Hz. split; [done|]. intros Hnil. by apply Hempty in Hnil.
Qed.

Lemma checkout_reports_empty_iff_empty_witness :
  exists total,
    get_cart_total shop_3_pens = Ret total shop_3_pens /\
    (cart shop_3_pens = [] -> total = 0) /\
    (cart shop_3_pens <> [] -> 0 < total) /\
    (checkout shop_3_pens = Ret [CartIsEmpty] shop_3_pens <-> cart shop_3_pens = []).
Proof.
  apply (checkout_reports_empty_iff_empty (two_products ++ [AddToCart "PID001" 3]));
    reflexivity.
Defined.

(** ** Integer prices: the total follows the line *)

Lemma sum_subtotals_lines_total (s : ShoppingCart Z) (c : dict CartItem) acc :
  Forall (fun kv => (product kv.2 < length (heap s))%nat) c ->
  sum_subtotals (dict_values c) acc s = Ret (acc + lines_total (heap s) c) s.
Proof.
  intros Hrefs. revert acc.
  induction Hrefs as [|[k item] c Hlt Hrefs IH]; intros acc; simpl.
  - unfold ret. f_equal. lia.
  - simpl in Hlt. apply lookup_lt_is_Some_2 in Hlt as [p Hp].
    unfold subtotal, deref, bind, ret, line_value. cbv beta. rewrite Hp.
    rewrite IH. f_equal. simpl. lia.
Qed.

Lemma line_value_restock (h : list (Product Z)) l p q item :
  h !! l = Some p ->
  line_value (<[l := with_quantity p q]> h) item = line_value h item.
Proof.
  intros Hl. unfold line_value.
  pose proof (restock_same_prices h l p q (product item) Hl) as Hprice.
  destruct (<[l := with_quantity p q]> h !! product item) as [p1|];
    destruct (h !! product item) as [p2|]; try done.
  injection Hprice as ->. done.
Qed.

Lemma lines_total_restock (h : list (Product Z)) l p q c :
  h !! l = Some p ->
  lines_total (<[l := with_quantity p q]> h) c = lines_total h c.
Proof.
  intros Hl. induction c as [|[k item] c IH]; simpl; [done|].
  by rewrite IH, line_value_restock.
Qed.

Lemma lines_total_set_Some h k item item' (c : dict CartItem) :
  dict_get k c = Some item ->
  lines_total h (dict_set k item' c)
  = lines_total h c - line_value h item + line_value h item'.
Proof.
  induction c as [|[k0 i0] c IH]; simpl; [done|].
  destruct (decide (k0 = k)) as [->|Hne]; simpl.
  - intros [= ->]. lia.
  - intros Hg. rewrite (IH Hg). lia.
Qed.

Lemma lines_total_set_None h k item' (c : dict CartItem) :
  dict_get k c = None ->
  lines_total h (dict_set k item' c) = lines_total h c + line_value h item'.
Proof.
  induction c as [|[k0 i0] c IH]; simpl; [lia|].
  destruct (decide (k0 = k)) as [->|Hne]; simpl; [done|].
  intros Hg. rewrite (IH Hg). lia.
Qed.

Lemma lines_total_del h k item (c : dict CartItem) :
  NoDup (dict_keys c) -> dict_get k c = Some item ->
  lines_total h (dict_del k c) = lines_total h c - line_value h item.
Proof.
  induction c as [|[k0 i0] c IH]; simpl; [done|].
  intros Hnd. apply NoDup_cons in Hnd as [Hnotin Hnd].
  destruct (decide (k0 = k)) as [->|Hne]; simpl.
  - intros [= ->]. rewrite dict_del_absent; [lia|].
    destruct (dict_get k c) as [other|] eqn:Hg; [|done].
    apply dict_get_Some_elem in Hg. exfalso. apply Hnotin.
    apply list_elem_of_fmap. by exists (k, other).
  - intros Hg. rewrite (IH Hnd Hg). lia.
Qed.

Lemma get_cart_total_lines_total (s : ShoppingCart Z) :
  valid_refs s -> get_cart_total s = Ret (lines_total (heap s) (cart s)) s.
Proof.
  intros [_ Hrefs]. exact (sum_subtotals_lines_total s (cart s) 0 Hrefs).
Qed.

(** X15: with integer prices, in every state the cart manager can be in, a
    call of [add_to_cart], [update_cart_quantity] or [remove_from_cart] on a
    product of the catalog changes the total of the cart by the price of that
    product times the change of the quantity of its cart line (a line that
    is not there counting for 0), whether the call returns [True] or
    [False]. *)
Theorem total_follows_line
    (s s' : ShoppingCart Z) (o : op Z) (pid : string) (l : loc) (p : Product Z) :
  reachable s ->
  op_key o = Some pid ->
  step o s = Ret tt s' ->
  catalog s !! pid = Some l ->
  heap s !! l = Some p ->
  exists total total',
    get_cart_total s = Ret total s /\
    get_cart_total s' = Ret total' s' /\
    total' = total + price p * (line_quantity pid s' - line_quantity pid s).
Proof.
  intros Hreach Hkey Hstep Hc Hl.
  pose proof (reachable_invariant s Hreach) as Hinv.
  destruct (step_effect o s Hinv) as (s'' & Hstep' & Heff & Hinv').
  assert (s'' = s') as -> by congruence.
  exists (lines_total (heap s) (cart s)), (lines_total (heap s') (cart s')).
  split; [apply get_cart_total_lines_total, Hinv|].
  split; [apply get_cart_total_lines_total, Hinv'|].
  destruct Heff as [o s|nm pr qty s|o s pid0 l0 p0 item' delta Hkey0 Hc0 Hl0 Hprod Hqty Hguard
                   |s pid0 l0 p0 item Hg Hc0 Hl0|s]; try done.
  - lia.
  - assert (pid0 = pid) as -> by congruence.
    assert (l0 = l) as -> by congruence.
    assert (p0 = p) as -> by congruence.
    cbn [heap cart]. rewrite lines_total_restock by done.
    unfold line_quantity in *. cbn [cart]. rewrite dict_get_set_eq.
    assert (Hitem' : line_value (heap s) item' = price p * quantity item').
    { unfold line_value. by rewrite Hprod, Hl. }
    destruct (dict_get pid (cart s)) as [item|] eqn:Hg.
    + rewrite (lines_total_set_Some _ _ _ _ _ Hg), Hitem'.
      destruct (invariant_line_ref _ _ _ Hinv Hg) as [Hci _].
      assert (Hitem : line_value (heap s) item = price p * quantity item).
      { unfold line_value. assert (product item = l) as -> by congruence.
        by rewrite Hl. }
      rewrite Hitem. lia.
    + rewrite (lines_total_set_None _ _ _ _ Hg), Hitem'. lia.
  - simpl in Hkey. assert (pid0 = pid) as -> by congruence.
    assert (l0 = l) as -> by congruence.
    assert (p0 = p) as -> by congruence.
    cbn [heap cart]. rewrite lines_total_restock by done.
    unfold line_quantity. cbn [cart]. rewrite dict_get_del_eq, Hg.
    rewrite (lines_total_del _ _ _ _ (proj2 (proj2 (proj2 Hinv))) Hg).
    destruct (invariant_line_ref _ _ _ Hinv Hg) as [Hci _].
    assert (Hitem : line_value (heap s) item = price p * quantity item).
    { unfold line_value. assert (product item = l) as -> by congruence.
      by rewrite Hl. }
    rewrite Hitem. lia.
Qed.

Lemma total_follows_line_witness :
  exists total total',
    get_cart_total shop_3_pens = Ret total shop_3_pens /\
    get_cart_total
      (mkShoppingCart [with_quantity pen 4; book] (catalog shop)
         [("PID001", mkCartItem 0%nat 1)] 3%N)
    = Ret total'
        (mkShoppingCart [with_quantity pen 4; book] (catalog shop)
           [("PID001", mkCartItem 0%nat 1)] 3%N) /\
    total' = total + 10 * (1 - 3).
Proof.
  apply (total_follows_line shop_3_pens
           (mkShoppingCart [with_quantity pen 4; book] (catalog shop)
              [("PID001", mkCartItem 0%nat 1)] 3%N)
           (UpdateCartQuantity "PID001" 1) "PID001" 0%nat (with_quantity pen 2)).
  - exact shop_3_pens_reachable.
  - reflexivity.
  - reflexivity.
  - reflexivity.
  - reflexivity.
Defined.

(** ** Two ways to reserve more of a product *)

(** X16: on a product that has a line in the cart, [add_to_cart pid qty] with
    a positive [qty] does exactly what [update_cart_quantity] does when it is
    given the quantity of the line plus [qty]: the same result, the same
    state. *)
Theorem add_is_update_on_existing_line
    {P : Type} `{Numeric P} (s : ShoppingCart P) (pid : string) (qty : Z)
    (item : CartItem) :
  dict_get pid (cart s) = Some item ->
  catalog s !! pid = Some (product item) ->
  0 < qty ->
  add_to_cart pid qty s = update_cart_quantity pid (quantity item + qty) s.
Proof.
  intros Hg Hc Hpos.
  destruct (heap s !! product item) as [p|] eqn:Hl.
  - destruct (decide (qty <= quantity_available p)) as [Hle|Hgt].
    + rewrite (add_to_cart_accepted _ _ _ _ _ Hc Hl) by lia.
      rewrite (update_grow _ _ _ _ _ Hg Hl) by lia.
      rewrite Hg. do 3 f_equal. f_equal. lia.
    + rewrite (add_to_cart_refused _ _ _ _ _ Hc Hl) by lia.
      by rewrite (update_grow_refused _ _ _ _ _ Hg Hl) by lia.
  - unfold_calls. by rewrite Hg, Hc, Hl.
Qed.

Lemma add_is_update_on_existing_line_witness :
  add_to_cart "PID001" 2 shop_3_pens
  = update_cart_quantity "PID001" (3 + 2) shop_3_pens.
Proof.
  apply (add_is_update_on_existing_line shop_3_pens "PID001" 2 (mkCartItem 0%nat 3)).
  - reflexivity.
  - reflexivity.
  - lia.
Defined.

(** ** The width of an identifier *)

Lemma string_of_uint_length d :
  String.length (NilEmpty.string_of_uint d) = Decimal.nb_digits d.
Proof. induction d; simpl; congruence. Qed.

Lemma nb_digits_zero_pad k d :
  Decimal.nb_digits (zero_pad k d) = (k + Decimal.nb_digits d)%nat.
Proof. induction k as [|k IH]; simpl; [done|]. by rewrite IH. Qed.

Lemma small_counters_have_3_digits :
  forallb (fun i => Nat.leb (Decimal.nb_digits (N.to_uint (N.of_nat i))) 3)
    (seq 0 1000) = true.
Proof. vm_compute. reflexivity. Qed.

(** X17: the format [:03d] pads and never cuts: the counter is written with
    all its decimal digits, on three characters at least; so the identifier
    of each of the first 999 products has exactly six characters. *)
Theorem format_03d_length (n : N) :
  String.length (format_03d n) = Nat.max 3 (Decimal.nb_digits (N.to_uint n)) /\
  ((n < 1000)%N -> String.length ("PID" +:+ format_03d n) = 6%nat).
Proof.
  assert (Hlen : String.length (format_03d n)
                 = Nat.max 3 (Decimal.nb_digits (N.to_uint n))).
  { unfold format_03d. rewrite string_of_uint_length, nb_digits_zero_pad. lia. }
  split; [done|]. intros Hlt.
  change (String.length ("PID" +:+ format_03d n))
    with (S (S (S (String.length (format_03d n))))).
  rewrite Hlen.
  pose proof small_counters_have_3_digits as Hall.
  rewrite forallb_forall in Hall.
  specialize (Hall (N.to_nat n)). rewrite N2Nat.id in Hall.
  assert (Hle : Nat.leb (Decimal.nb_digits (N.to_uint n)) 3 = true).
  { apply Hall. apply in_seq. lia. }
  apply Nat.leb_le in Hle. lia.
Qed.

Lemma format_03d_length_witness :
  String.length ("PID" +:+ format_03d 42) = 6%nat.
Proof. apply (proj2 (format_03d_length 42)). reflexivity. Defined.
